(** * go-tangra-backup: a shallow embedding of the backup orchestrator

    This development models the Go sources of the backup service:
    - [src/unnamed/part_002]: the AES-256-GCM envelope ([encryptData],
      [DecryptData]);
    - [src/internal/service/storage.go]: the filesystem artifact store
      ([SaveModuleBackup], [LoadModuleBackupData], [SaveFullBackup],
      [LoadFullBackupModuleData], [GetFullBackup], [unmarshalWithFallback],
      [gzipCompress], [gzipDecompress]);
    - [src/internal/service/orchestrator_service.go]: the orchestration
      engine ([CreateModuleBackup], [CreateFullBackup], [RestoreFullBackup],
      [ListBackups], [ListFullBackups], [normalizePagination]).

    Go's standard library primitives that the code calls (the DEFLATE
    stream of compress/gzip, PBKDF2, AES-GCM seal/open, protojson and
    encoding/json) are section variables; their documented properties are
    section hypotheses, used only by the lemmas that need them.  Effects
    (files, directories, the random number generator) are threaded through
    an explicit state-and-error monad over a [World]. *)

From Stdlib Require Import ZArith Ascii Strings.Byte.
From stdpp Require Import base gmap strings list pretty sorting.

#[global] Instance byte_eq_dec : EqDecision Byte.byte := Byte.byte_eq_dec.

Abbreviation bytes := (list Byte.byte).

(** ** Go results and the effect monad *)

(** The outcome of a Go call: a value with a nil error, a non-nil error
    (its message), or a runtime panic. *)
Inductive Result (A : Type) : Type :=
| Ok (a : A)
| Err (msg : string)
| Panic (msg : string).
Arguments Ok {A} a.
Arguments Err {A} msg.
Arguments Panic {A} msg.

(** The mutable world the service sees: the directories and files under
    the storage root (a file is addressed by its directory and its base
    name, as [filepath.Join(dir, name)] builds it), and the number of
    [crypto/rand.Read] calls made so far. *)
Record World := mkWorld {
  dirs : gset string;
  files : gmap (string * string) bytes;
  entropy : nat
}.

Definition M (A : Type) : Type := World -> Result A * World.

Definition ret {A} (a : A) : M A := fun w => (Ok a, w).
Definition throw {A} (msg : string) : M A := fun w => (Err msg, w).
Definition bind {A B} (k : A -> M B) (m : M A) : M B :=
  fun w =>
    match m w with
    | (Ok a, w') => k a w'
    | (Err e, w') => (Err e, w')
    | (Panic e, w') => (Panic e, w')
    end.
Definition liftR {A} (r : Result A) : M A := fun w => (r, w).

#[global] Instance M_ret : MRet M := @ret.
#[global] Instance M_bind : MBind M := @bind.

(** [os.MkdirAll]; I/O failures of the host filesystem are not modelled. *)
Definition mkdirAll (dir : string) : M unit :=
  fun w => (Ok tt, mkWorld ({[dir]} ∪ dirs w) (files w) (entropy w)).

(** [os.WriteFile(filepath.Join(dir, name), data, 0o644)]. *)
Definition writeFile (dir name : string) (data : bytes) : M unit :=
  fun w => (Ok tt, mkWorld (dirs w) (<[(dir, name) := data]> (files w)) (entropy w)).

(** [os.ReadFile(filepath.Join(dir, name))]. *)
Definition readFile (dir name : string) : M bytes :=
  fun w =>
    match files w !! (dir, name) with
    | Some d => (Ok d, w)
    | None => (Err ("open " +:+ dir +:+ "/" +:+ name +:+ ": no such file or directory"), w)
    end.

(** [_, err := os.Stat(filepath.Join(dir, name)); err == nil]. *)
Definition statOk (dir name : string) : M bool :=
  fun w => (Ok (bool_decide (is_Some (files w !! (dir, name)))), w).

(** Paths are the strings [filepath.Join] builds: [path] lies in the tree
    rooted at [dir] when it is [dir] itself or starts with [dir/].  The
    backup directories are joined from a clean root and one clean path
    segment (see [cleanSegment]), for which [Join] is the concatenation. *)
Definition underDir (dir path : string) : bool :=
  String.eqb path dir || String.prefix (dir +:+ "/") path.

(** The path of a stored file. *)
Definition filePath (k : string * string) : string := k.1 +:+ "/" +:+ k.2.

(** [_, err := os.Stat(path); !os.IsNotExist(err)]: the path is a created
    directory, an ancestor of one, or a stored file or one of its
    ancestors. *)
Definition statExists (path : string) : M bool :=
  fun w => (Ok (existsb (underDir path) (elements (dirs w)) ||
                existsb (fun k => underDir path (filePath k)) (elements (dom (files w)))), w).

(** [os.RemoveAll(path)]: every directory and file in the tree rooted at
    [path] is removed. *)
Definition removeAll (path : string) : M unit :=
  fun w => (Ok tt, mkWorld (filter (fun d => underDir path d = false) (dirs w))
                         (filter (fun kv : (string * string) * bytes =>
                                    underDir path (filePath kv.1) = false) (files w))
                         (entropy w)).



(** The entry of [dir] on the way to [path], when [path] lies strictly
    inside [dir]. *)
Definition childName (dir path : string) : option string :=
  if String.prefix (dir +:+ "/") path then
    let rest := String.substring (String.length dir + 1) (String.length path) path in
    Some (match String.index 0 "/" rest with
          | Some i => String.substring 0 i rest
          | None => rest
          end)
  else None.

(** The byte-wise order of names, in which [os.ReadDir] lists them. *)
Definition nameLe (a b : string) : Prop := String.leb a b = true.
#[global] Instance nameLe_dec : RelDecision nameLe :=
  fun a b => bool_eq_dec (String.leb a b) true.

(** The subdirectories of [dir], in name order: the entries of
    [os.ReadDir(dir)] with [entry.IsDir()].  A file stored directly in
    [dir] is no directory; a created directory or a stored file further
    down has one on its way. *)
Definition childDirs (dir : string) (w : World) : list string :=
  merge_sort nameLe
    (elements (list_to_set (C:=gset string)
       (omap (childName dir) (elements (dirs w) ++ map fst (elements (dom (files w))))))).

(** [dir] is a directory: a created one, an ancestor of one, or the
    directory of a stored file or one of its ancestors. *)
Definition dirExists (dir : string) (w : World) : bool :=
  existsb (underDir dir) (elements (dirs w)) ||
  existsb (fun k => underDir dir k.1) (elements (dom (files w))).

(** [entries, err := os.ReadDir(dir)], with [os.IsNotExist(err)] told
    apart from the other errors. *)
Inductive DirListing :=
  | Listing (names : list string)
  | NotExist
  | ListError (msg : string).

Definition readDir (dir : string) (w : World) : DirListing :=
  if dirExists dir w then Listing (childDirs dir w)
  else if existsb (fun k => String.eqb (filePath k) dir) (elements (dom (files w)))
  then ListError ("readdirent " +:+ dir +:+ ": not a directory")
  else NotExist.

(** ** Go integers *)

(** Two's-complement wrap-around of Go's [int32] and [int64]. *)
Definition int32 (z : Z) : Z := ((z + 2 ^ 31) mod 2 ^ 32) - 2 ^ 31.
Definition int64 (z : Z) : Z := ((z + 2 ^ 63) mod 2 ^ 64) - 2 ^ 63.

(** ** Messages (backup/service/v1) *)

Record ModuleTarget := {
  mt_ModuleId : string;
  mt_GrpcEndpoint : string
}.

Record BackupInfo := {
  bi_Id : string;
  bi_ModuleId : string;
  bi_Description : string;
  bi_TenantId : Z;
  bi_FullBackup : bool;
  bi_Status : string;
  bi_SizeBytes : Z;
  bi_EntityCounts : gmap string Z;
  bi_CreatedAt : option Z;
  bi_CreatedBy : string;
  bi_Version : string;
  bi_Encrypted : bool;
  bi_Warnings : list string
}.

(** The zero [BackupInfo]; [&backupV1.BackupInfo{...}] literals start
    from it. *)
Definition emptyBackupInfo : BackupInfo := {|
  bi_Id := ""; bi_ModuleId := ""; bi_Description := ""; bi_TenantId := 0;
  bi_FullBackup := false; bi_Status := ""; bi_SizeBytes := 0;
  bi_EntityCounts := ∅; bi_CreatedAt := None; bi_CreatedBy := "";
  bi_Version := ""; bi_Encrypted := false; bi_Warnings := [] |}.

(** [info.Encrypted = true] on a [*BackupInfo]. *)
Definition setBackupEncrypted (i : BackupInfo) : BackupInfo := {|
  bi_Id := bi_Id i; bi_ModuleId := bi_ModuleId i;
  bi_Description := bi_Description i; bi_TenantId := bi_TenantId i;
  bi_FullBackup := bi_FullBackup i; bi_Status := bi_Status i;
  bi_SizeBytes := bi_SizeBytes i; bi_EntityCounts := bi_EntityCounts i;
  bi_CreatedAt := bi_CreatedAt i; bi_CreatedBy := bi_CreatedBy i;
  bi_Version := bi_Version i; bi_Encrypted := true;
  bi_Warnings := bi_Warnings i |}.

Record FullBackupInfo := {
  fb_Id : string;
  fb_Description : string;
  fb_TenantId : Z;
  fb_FullBackup : bool;
  fb_Status : string;
  fb_TotalSizeBytes : Z;
  fb_ModuleBackups : list BackupInfo;
  fb_CreatedAt : option Z;
  fb_CreatedBy : string;
  fb_Errors : list string;
  fb_Encrypted : bool
}.

(** [info.Encrypted = true] on a [*FullBackupInfo]. *)
Definition setFullEncrypted (i : FullBackupInfo) : FullBackupInfo := {|
  fb_Id := fb_Id i; fb_Description := fb_Description i;
  fb_TenantId := fb_TenantId i; fb_FullBackup := fb_FullBackup i;
  fb_Status := fb_Status i; fb_TotalSizeBytes := fb_TotalSizeBytes i;
  fb_ModuleBackups := fb_ModuleBackups i; fb_CreatedAt := fb_CreatedAt i;
  fb_CreatedBy := fb_CreatedBy i; fb_Errors := fb_Errors i;
  fb_Encrypted := true |}.

(** [ExportResult] of the module client. *)
Record ExportResult := {
  er_Data : bytes;
  er_ModuleId : string;
  er_Version : string;
  er_TenantID : Z;
  er_EntityCounts : gmap string Z
}.

Record EntityImportResult := {
  eir_EntityType : string;
  eir_Total : Z;
  eir_Created : Z;
  eir_Updated : Z;
  eir_Skipped : Z;
  eir_Failed : Z
}.

(** [ModuleImportResponse] of the module client. *)
Record ImportResponse := {
  ir_Success : bool;
  ir_Results : list EntityImportResult;
  ir_Warnings : list string
}.

Record ModuleRestoreResult := {
  mrr_ModuleId : string;
  mrr_Success : bool;
  mrr_Error : string;
  mrr_Results : list EntityImportResult;
  mrr_Warnings : list string
}.

Record CreateModuleBackupRequest := {
  cmb_Target : option ModuleTarget;
  cmb_TenantId : option Z;
  cmb_Description : string;
  cmb_IncludeSecrets : bool;
  cmb_Password : string
}.

Record CreateFullBackupRequest := {
  cfb_Targets : list ModuleTarget;
  cfb_TenantId : option Z;
  cfb_Description : string;
  cfb_IncludeSecrets : bool;
  cfb_Password : string
}.

Record RestoreFullBackupRequest := {
  rfb_Targets : list ModuleTarget;
  rfb_BackupId : string;
  rfb_Password : string;
  rfb_Mode : Z
}.

Record RestoreFullBackupResponse := {
  rfbr_Success : bool;
  rfbr_ModuleResults : list ModuleRestoreResult
}.

Record ListBackupsRequest := {
  lb_ModuleId : string;
  lb_TenantId : option Z;
  lb_Page : Z;
  lb_PageSize : Z
}.

Record ListBackupsResponse := {
  lbr_Backups : list BackupInfo;
  lbr_Total : Z
}.

Record ListFullBackupsRequest := {
  lfb_TenantId : option Z;
  lfb_Page : Z;
  lfb_PageSize : Z
}.

Record ListFullBackupsResponse := {
  lfbr_Backups : list FullBackupInfo;
  lfbr_Total : Z
}.

Record RestoreModuleBackupRequest := {
  rmb_BackupId : string;
  rmb_Target : option ModuleTarget;
  rmb_Password : string;
  rmb_Mode : Z
}.

Record RestoreModuleBackupResponse := {
  rmbr_Success : bool;
  rmbr_Results : list EntityImportResult;
  rmbr_Warnings : list string
}.

Record DownloadBackupRequest := {
  dlb_Id : string;
  dlb_Password : string
}.

Record DownloadBackupResponse := {
  dlbr_Data : bytes;
  dlbr_Filename : string
}.

(** The [proto.Message] interface as the store uses it: [proto.Reset]
    (the zero message), [protojson.Marshal] with the store's options,
    and the two decoders.  A decoder updates the message in place and
    returns a non-nil error ([Some msg]) when the input does not parse. *)
Class ProtoMessage (T : Type) := {
  protoReset : T;
  protojsonMarshal : T -> Result bytes;
  protojsonUnmarshal : bytes -> T -> T * option string;
  jsonUnmarshal : bytes -> T -> T * option string
}.

(** [unmarshalWithFallback(data, msg)]: the message after the call and
    the returned error. *)
Definition unmarshalWithFallback {T} `{ProtoMessage T} (data : bytes) (msg : T)
    : T * option string :=
  match protojsonUnmarshal data msg with
  | (msg', None) => (msg', None)
  | (_, Some _) =>
      let msg0 := protoReset in
      match jsonUnmarshal data msg0 with
      | (msg'', Some err) =>
          (msg'', Some ("unmarshal (both protojson and json failed): " +:+ err))
      | (msg'', None) => (msg'', None)
      end
  end.

(** [fmt.Errorf(prefix + "%w", err)] around a failing step. *)
Definition wrapErr {A} (prefix : string) (m : M A) : M A :=
  fun w =>
    match m w with
    | (Err e, w') => (Err (prefix +:+ e), w')
    | r => r
    end.

(** [BackupStorage]: the root directory. *)
Record BackupStorage := { basePath : string }.

Definition moduleDir (s : BackupStorage) (backupID : string) : string :=
  basePath s +:+ "/modules/" +:+ backupID.

Definition fullDir (s : BackupStorage) (backupID : string) : string :=
  basePath s +:+ "/full/" +:+ backupID.

(** ** Strings of the command line and of the module client *)

(** [strings.HasSuffix(s, suffix)]. *)
Definition hasSuffix (s suffix : string) : bool :=
  (String.length suffix <=? String.length s) &&
  String.eqb (String.substring (String.length s - String.length suffix) (String.length suffix) s) suffix.

(** [strings.TrimSuffix(s, suffix)]: [s[:len(s)-len(suffix)]] when [s]
    ends with [suffix]. *)
Definition trimSuffix (s suffix : string) : string :=
  if hasSuffix s suffix then String.substring 0 (String.length s - String.length suffix) s else s.

(** The output path of [runDecrypt] (main.go): [--output], or the input
    path without ".enc" and then without ".gz". *)
Definition decryptOutputPath (fileName output : string) : string :=
  if String.eqb output "" then trimSuffix (trimSuffix fileName ".enc") ".gz" else output.

(** [strings.Contains(s, substr)]. *)
Definition containsStr (s substr : string) : bool :=
  match String.index 0 substr s with Some _ => true | None => false end.

(** The target [dialModule] hands to [grpc.NewClient]. *)
Definition dialTarget (endpoint : string) : string :=
  if containsStr endpoint "://" then endpoint else "passthrough:///" +:+ endpoint.

(** gRPC metadata: lower-case keys to their values. *)
Abbreviation MD := (gmap string (list string)).

Definition forwardedKeys : list string :=
  ["x-md-global-user-id"; "x-md-global-username"; "x-md-global-roles"].

(** [forwardMetadata(ctx)]: [tenantID] is [grpcx.GetTenantIDFromContext(ctx)]
    (a [uint32], printed with [%d]) and [inMD] the incoming metadata, if
    any. *)
Definition forwardMetadata (tenantID : N) (inMD : option MD) : MD :=
  let outMD : MD := {[ "x-md-global-tenant-id" := [pretty tenantID] ]} in
  match inMD with
  | None => outMD
  | Some md =>
      foldl (fun (out : MD) key =>
               match md !! key with
               | Some (v :: _) => <[key := [v]]> out
               | _ => out
               end) outMD forwardedKeys
  end.

(** ** Reference instances of the library primitives

    Concrete stand-ins for the Go library calls, used only to run the
    model on explicit inputs: an identity "compression", a GCM whose tag
    is sixteen zero bytes, and a key derivation that ignores its input. *)

Definition toyRandByte (n j : nat) : Byte.byte := Byte.x2a.
Definition toyPbkdf2Key (password : string) (salt : bytes) (iter : Z) (len : nat) : bytes :=
  replicate len Byte.x00.
Definition toyGcmSeal (key nonce data : bytes) : bytes := data ++ replicate 16 Byte.x00.
Definition toyGcmOpen (key nonce ciphertext : bytes) : option bytes :=
  if decide (16 <= length ciphertext /\
             drop (length ciphertext - 16) ciphertext = replicate 16 Byte.x00)
  then Some (take (length ciphertext - 16) ciphertext) else None.
Definition toyGzipEncode (data : bytes) : bytes := data.
Definition toyGzipDecode (data : bytes) : Result bytes := Ok data.

(** A [proto.Message] stand-in whose encoders always succeed and whose
    decoders yield [decoded] (canonical form accepted iff [canonicalOk]). *)
Definition toyProto {T} (zero decoded : T) (canonicalOk : bool) : ProtoMessage T := {|
  protoReset := zero;
  protojsonMarshal := fun _ => Ok [];
  protojsonUnmarshal := fun _ m => if canonicalOk then (decoded, None) else (m, Some "syntax error");
  jsonUnmarshal := fun _ _ => (decoded, None)
|}.

Definition emptyFullBackupInfo : FullBackupInfo := {|
  fb_Id := ""; fb_Description := ""; fb_TenantId := 0; fb_FullBackup := false;
  fb_Status := ""; fb_TotalSizeBytes := 0; fb_ModuleBackups := [];
  fb_CreatedAt := None; fb_CreatedBy := ""; fb_Errors := []; fb_Encrypted := false |}.

Definition emptyWorld : World := {| dirs := ∅; files := ∅; entropy := 0 |}.

(** ** Example inputs

    A storage root, module targets, module-client stand-ins and a stored
    full backup, used to run the model on concrete calls. *)

Definition exampleStorage : BackupStorage := {| basePath := "/var/lib/backup" |}.

Definition targetA : ModuleTarget := {| mt_ModuleId := "a"; mt_GrpcEndpoint := "a:9000" |}.
Definition targetA2 : ModuleTarget := {| mt_ModuleId := "a"; mt_GrpcEndpoint := "a2:9000" |}.
Definition targetB : ModuleTarget := {| mt_ModuleId := "b"; mt_GrpcEndpoint := "b:9000" |}.

Definition exportA : ExportResult := {|
  er_Data := [Byte.x01; Byte.x02]; er_ModuleId := "a"; er_Version := "1";
  er_TenantID := 0; er_EntityCounts := ∅ |}.
Definition exportA2 : ExportResult := {|
  er_Data := [Byte.x03; Byte.x04; Byte.x05]; er_ModuleId := "a"; er_Version := "1";
  er_TenantID := 0; er_EntityCounts := ∅ |}.

(** A module client whose endpoints "a:9000" and "a2:9000" answer the
    export and whose other endpoints are unreachable. *)
Definition exampleExportBackup (t : ModuleTarget) (tenantID : option Z) (includeSecrets : bool)
    : ExportResult + string :=
  if decide (mt_GrpcEndpoint t = "a:9000") then inl exportA
  else if decide (mt_GrpcEndpoint t = "a2:9000") then inl exportA2
  else inr "connection refused".

(** A module client whose import runs but reports [success = false]. *)
Definition rejectedImport : ImportResponse := {|
  ir_Success := false; ir_Results := []; ir_Warnings := ["validation failed"] |}.
Definition exampleImportBackup (t : ModuleTarget) (data : bytes) (mode : Z)
    : ImportResponse + string :=
  inl rejectedImport.

Definition exampleListModuleBackups (s : BackupStorage) (moduleID : string)
    (tenantID : option Z) : M (list BackupInfo) :=
  mret [].
Definition exampleListFullBackups (s : BackupStorage) (tenantID : option Z)
    : M (list FullBackupInfo) :=
  mret [].

Definition completedA : BackupInfo := {|
  bi_Id := ""; bi_ModuleId := "a"; bi_Description := ""; bi_TenantId := 0;
  bi_FullBackup := true; bi_Status := "completed"; bi_SizeBytes := 1;
  bi_EntityCounts := ∅; bi_CreatedAt := None; bi_CreatedBy := "";
  bi_Version := "1"; bi_Encrypted := false; bi_Warnings := [] |}.

Definition manifestA : FullBackupInfo := {|
  fb_Id := "f1"; fb_Description := ""; fb_TenantId := 0; fb_FullBackup := true;
  fb_Status := "completed"; fb_TotalSizeBytes := 1; fb_ModuleBackups := [completedA];
  fb_CreatedAt := Some 0%Z; fb_CreatedBy := "admin"; fb_Errors := []; fb_Encrypted := false |}.

Definition exampleBackupInfoProto : ProtoMessage BackupInfo :=
  toyProto emptyBackupInfo emptyBackupInfo true.
Definition exampleFullBackupInfoProto : ProtoMessage FullBackupInfo :=
  toyProto emptyFullBackupInfo manifestA true.

(** The full backup "f1" on disk: its manifest and module "a"'s payload. *)
Definition restoreWorld : World := {|
  dirs := {[fullDir exampleStorage "f1"]};
  files := <[(fullDir exampleStorage "f1", "metadata.json") := []]>
             (<[(fullDir exampleStorage "f1", "a.json.gz") := [Byte.x01]]> ∅);
  entropy := 0 |}.

Definition partialRequest : CreateFullBackupRequest := {|
  cfb_Targets := [targetA; targetB]; cfb_TenantId := None; cfb_Description := "";
  cfb_IncludeSecrets := false; cfb_Password := "" |}.
Definition duplicateRequest : CreateFullBackupRequest := {|
  cfb_Targets := [targetA; targetA2]; cfb_TenantId := None; cfb_Description := "";
  cfb_IncludeSecrets := false; cfb_Password := "" |}.
Definition restoreRequest : RestoreFullBackupRequest := {|
  rfb_Targets := [targetA]; rfb_BackupId := "f1"; rfb_Password := ""; rfb_Mode := 0 |}.
Definition moduleRequestB : CreateModuleBackupRequest := {|
  cmb_Target := Some targetB; cmb_TenantId := None; cmb_Description := "";
  cmb_IncludeSecrets := false; cmb_Password := "" |}.
Definition lastPageRequest : ListBackupsRequest := {|
  lb_ModuleId := "a"; lb_TenantId := None; lb_Page := 2147483647; lb_PageSize := 100 |}.
Definition lastFullPageRequest : ListFullBackupsRequest := {|
  lfb_TenantId := None; lfb_Page := 2147483647; lfb_PageSize := 100 |}.

(** A module backup with an id of more than eight bytes, a
    [proto.Message] stand-in that decodes its encrypted form, and
    requests addressed to it. *)
Definition backupC : BackupInfo := {|
  bi_Id := "c0ffee00-1111"; bi_ModuleId := "a"; bi_Description := ""; bi_TenantId := 0;
  bi_FullBackup := false; bi_Status := "completed"; bi_SizeBytes := 1;
  bi_EntityCounts := ∅; bi_CreatedAt := Some 0%Z; bi_CreatedBy := "admin";
  bi_Version := "1"; bi_Encrypted := false; bi_Warnings := [] |}.
Definition encryptedBackupCProto : ProtoMessage BackupInfo :=
  toyProto emptyBackupInfo (setBackupEncrypted backupC) true.
Definition exampleFormatDate (t : Z) : string := "19700101".
Definition downloadRequestC : DownloadBackupRequest := {|
  dlb_Id := "c0ffee00-1111"; dlb_Password := "secret" |}.
Definition downloadRequestCNoPassword : DownloadBackupRequest := {|
  dlb_Id := "c0ffee00-1111"; dlb_Password := "" |}.
Definition restoreRequestC : RestoreModuleBackupRequest := {|
  rmb_BackupId := "c0ffee00-1111"; rmb_Target := Some targetA; rmb_Password := "secret";
  rmb_Mode := 0 |}.
Definition moduleRequestA : CreateModuleBackupRequest := {|
  cmb_Target := Some targetA; cmb_TenantId := None; cmb_Description := "";
  cmb_IncludeSecrets := false; cmb_Password := "secret" |}.
(** What [CreateModuleBackup] returns for [moduleRequestA] at time 0. *)
Definition createdM2 : BackupInfo := {|
  bi_Id := "m2"; bi_ModuleId := "a"; bi_Description := ""; bi_TenantId := 0;
  bi_FullBackup := false; bi_Status := "completed"; bi_SizeBytes := 2;
  bi_EntityCounts := ∅; bi_CreatedAt := Some 0%Z; bi_CreatedBy := "admin";
  bi_Version := "1"; bi_Encrypted := true; bi_Warnings := [] |}.
Definition exampleListTwoBackups (s : BackupStorage) (moduleID : string)
    (tenantID : option Z) : M (list BackupInfo) :=
  mret [completedA; backupC].
Definition exampleListTwoFullBackups (s : BackupStorage) (tenantID : option Z)
    : M (list FullBackupInfo) :=
  mret [manifestA; emptyFullBackupInfo].
Definition secondPageRequest : ListBackupsRequest := {|
  lb_ModuleId := "a"; lb_TenantId := None; lb_Page := 2; lb_PageSize := 1 |}.
Definition secondFullPageRequest : ListFullBackupsRequest := {|
  lfb_TenantId := None; lfb_Page := 2; lfb_PageSize := 1 |}.

Section GoLib.

(** The entropy source: byte [j] of the buffer filled by the [n]-th call
    of [crypto/rand.Read]. *)
Variable randByte : nat -> nat -> Byte.byte.

(** [rand.Read(make([]byte, n))]: since Go 1.24 (required by the
    [crypto/pbkdf2] import) it never returns an error and always fills
    the whole buffer. *)
Definition randRead (n : nat) : M bytes :=
  fun w => (Ok (map (randByte (entropy w)) (seq 0 n)),
            mkWorld (dirs w) (files w) (S (entropy w))).

(** [pbkdf2.Key(sha256.New, password, salt, iter, keyLen)]. *)
Variable pbkdf2Key : string -> bytes -> Z -> nat -> bytes.
(** [gcm.Seal(nil, nonce, plaintext, nil)] under the AES key. *)
Variable gcmSeal : bytes -> bytes -> bytes -> bytes.
(** [gcm.Open(nil, nonce, ciphertext, nil)]: [None] when the GCM tag
    does not authenticate the ciphertext under this key and nonce. *)
Variable gcmOpen : bytes -> bytes -> bytes -> option bytes.
(** The DEFLATE/gzip stream [gzip.NewWriter] writes for [data]. *)
Variable gzipEncode : bytes -> bytes.
(** [gzip.NewReader] followed by [io.ReadAll]. *)
Variable gzipDecode : bytes -> Result bytes.

(** AES-GCM decrypts what it sealed under the same key and nonce. *)
Hypothesis gcmOpen_gcmSeal : forall k n d, gcmOpen k n (gcmSeal k n d) = Some d.
(** AES-GCM output is the ciphertext (as long as the plaintext) followed
    by a 16-byte tag. *)
Hypothesis gcmSeal_length : forall k n d, length (gcmSeal k n d) = length d + 16.
(** compress/gzip reads back what it wrote. *)
Hypothesis gzipDecode_gzipEncode : forall d, gzipDecode (gzipEncode d) = Ok d.

(** ** Crypto primitives (src/unnamed/part_002) *)

Definition pbkdf2Iterations : Z := 600000.
Definition saltSize : nat := 32.
Definition keySize : nat := 32.
Definition nonceSize : nat := 12.

(** [encryptData]: output [salt || nonce || ciphertext+tag].  The key has
    [keySize] bytes, so [aes.NewCipher] and [cipher.NewGCM] cannot fail. *)
Definition encryptData (data : bytes) (password : string) : M bytes :=
  salt ← randRead saltSize ;
  let key := pbkdf2Key password salt pbkdf2Iterations keySize in
  nonce ← randRead nonceSize ;
  let ciphertext := gcmSeal key nonce data in
  mret (salt ++ nonce ++ ciphertext).

(** [DecryptData]. *)
Definition DecryptData (encrypted : bytes) (password : string) : Result bytes :=
  let minLen := saltSize + nonceSize + 1 in
  if decide (length encrypted < minLen) then Err "encrypted data too short"
  else
    let salt := take saltSize encrypted in
    let nonce := take nonceSize (drop saltSize encrypted) in
    let ciphertext := drop (saltSize + nonceSize) encrypted in
    let key := pbkdf2Key password salt pbkdf2Iterations keySize in
    match gcmOpen key nonce ciphertext with
    | Some plaintext => Ok plaintext
    | None => Err "decryption failed (wrong password or corrupted data): cipher: message authentication failed"
    end.

(** ** Compression helpers (storage.go) *)

(** [gzipCompress]: both error returns come from writing into a
    [bytes.Buffer], whose [Write] always returns a nil error. *)
Definition gzipCompress (data : bytes) : Result bytes := Ok (gzipEncode data).

Definition gzipDecompress (data : bytes) : Result bytes := gzipDecode data.

Context `{ProtoMessage BackupInfo} `{ProtoMessage FullBackupInfo}.

(** ** Artifact store (storage.go) *)

(** [SaveModuleBackup(info, data, password)]: it sets [info.Encrypted]
    through the caller's pointer, so the updated [info] is returned. *)
Definition SaveModuleBackup (s : BackupStorage) (info : BackupInfo) (data : bytes)
    (password : string) : M BackupInfo :=
  let dir := moduleDir s (bi_Id info) in
  wrapErr "create backup dir: " (mkdirAll dir) ;;
  compressed ← wrapErr "compress data: " (liftR (gzipCompress data)) ;
  '(filename, payload, info) ←
    (if decide (password ≠ "") then
       encrypted ← wrapErr "encrypt data: " (encryptData compressed password) ;
       mret ("data.json.gz.enc", encrypted, setBackupEncrypted info)
     else mret ("data.json.gz", compressed, info)) ;
  metaBytes ← wrapErr "marshal metadata: " (liftR (protojsonMarshal info)) ;
  wrapErr "write metadata: " (writeFile dir "metadata.json" metaBytes) ;;
  wrapErr "write data: " (writeFile dir filename payload) ;;
  mret info.

(** [LoadModuleBackupData(backupID, password)]. *)
Definition LoadModuleBackupData (s : BackupStorage) (backupID password : string)
    : M bytes :=
  let dir := moduleDir s backupID in
  encExists ← statOk dir "data.json.gz.enc" ;
  if (encExists : bool) then
    if decide (password = "") then throw "backup is encrypted: password required"
    else
      encrypted ← wrapErr "read encrypted backup data: " (readFile dir "data.json.gz.enc") ;
      compressed ← wrapErr "decrypt backup data: " (liftR (DecryptData encrypted password)) ;
      liftR (gzipDecompress compressed)
  else
    compressed ← wrapErr "read backup data: " (readFile dir "data.json.gz") ;
    liftR (gzipDecompress compressed).

(** The loop of [SaveFullBackup] over [moduleData]. *)
Fixpoint writeModuleData (dir password : string) (entries : list (string * bytes))
    : M unit :=
  match entries with
  | [] => mret tt
  | (moduleID, data) :: rest =>
      compressed ← wrapErr ("compress " +:+ moduleID +:+ " data: ") (liftR (gzipCompress data)) ;
      '(filename, payload) ←
        (if decide (password ≠ "") then
           encrypted ← wrapErr ("encrypt " +:+ moduleID +:+ " data: ") (encryptData compressed password) ;
           mret (moduleID +:+ ".json.gz.enc", encrypted)
         else mret (moduleID +:+ ".json.gz", compressed)) ;
      wrapErr ("write " +:+ moduleID +:+ " data: ") (writeFile dir filename payload) ;;
      writeModuleData dir password rest
  end.

(** [SaveFullBackup(info, moduleData, password)].  Go ranges over the map
    in an unspecified order; the model takes the order of [map_to_list]. *)
Definition SaveFullBackup (s : BackupStorage) (info : FullBackupInfo)
    (moduleData : gmap string bytes) (password : string) : M FullBackupInfo :=
  let dir := fullDir s (fb_Id info) in
  wrapErr "create full backup dir: " (mkdirAll dir) ;;
  let info := if decide (password ≠ "") then setFullEncrypted info else info in
  writeModuleData dir password (map_to_list moduleData) ;;
  metaBytes ← wrapErr "marshal manifest: " (liftR (protojsonMarshal info)) ;
  wrapErr "write manifest: " (writeFile dir "metadata.json" metaBytes) ;;
  mret info.

(** [LoadFullBackupModuleData(backupID, moduleID, password)]. *)
Definition LoadFullBackupModuleData (s : BackupStorage) (backupID moduleID password : string)
    : M bytes :=
  let dir := fullDir s backupID in
  let encName := moduleID +:+ ".json.gz.enc" in
  let plainName := moduleID +:+ ".json.gz" in
  encExists ← statOk dir encName ;
  if (encExists : bool) then
    if decide (password = "") then throw "backup is encrypted: password required"
    else
      encrypted ← wrapErr ("read encrypted module data " +:+ moduleID +:+ ": ") (readFile dir encName) ;
      compressed ← wrapErr ("decrypt module data " +:+ moduleID +:+ ": ") (liftR (DecryptData encrypted password)) ;
      liftR (gzipDecompress compressed)
  else
    compressed ← wrapErr ("read module data " +:+ moduleID +:+ ": ") (readFile dir plainName) ;
    liftR (gzipDecompress compressed).

(** [readFullMetadata], which [GetFullBackup] calls under the read lock. *)
Definition GetFullBackup (s : BackupStorage) (backupID : string) : M FullBackupInfo :=
  metaBytes ← wrapErr "read manifest: " (readFile (fullDir s backupID) "metadata.json") ;
  match unmarshalWithFallback metaBytes protoReset with
  | (info, None) => mret info
  | (_, Some err) => throw ("unmarshal manifest: " +:+ err)
  end.

(** ** Module client and directory listing *)

(** [moduleClient.ExportBackup(ctx, target, tenantID, includeSecrets)]:
    the module's export ([inl]) or the returned error's message ([inr]). *)
Variable ExportBackup : ModuleTarget -> option Z -> bool -> ExportResult + string.
(** [moduleClient.ImportBackup(ctx, target, data, mode)]. *)
Variable ImportBackup : ModuleTarget -> bytes -> Z -> ImportResponse + string.
(** [storage.ListModuleBackups(moduleID, tenantID)] and
    [storage.ListFullBackups(tenantID)]: directory enumeration, filtering
    and sorting, which the pagination of the engine consumes as given. *)
Variable ListModuleBackups : BackupStorage -> string -> option Z -> M (list BackupInfo).
Variable StorageListFullBackups : BackupStorage -> option Z -> M (list FullBackupInfo).

(** ** Orchestration engine (orchestrator_service.go) *)

Definition tenantIDValue (tid : option Z) : Z :=
  match tid with Some t => t | None => 0%Z end.

(** [req.TenantId != nil && *req.TenantId == 0]. *)
Definition fullBackupFlag (tid : option Z) : bool :=
  match tid with Some t => bool_decide (t = 0%Z) | None => false end.

(** [CreateModuleBackup].  [username] is [getUsernameFromContext(ctx)],
    [now] is [time.Now()] and [backupID] the [uuid.New().String()] that
    either branch draws. *)
Definition CreateModuleBackup (s : BackupStorage) (username : string) (now : Z)
    (backupID : string) (req : CreateModuleBackupRequest) : M BackupInfo :=
  match cmb_Target req with
  | None => throw "target is required"
  | Some t =>
      match ExportBackup t (cmb_TenantId req) (cmb_IncludeSecrets req) with
      | inr err =>
          (* Save a failed backup record *)
          let info := {|
            bi_Id := backupID; bi_ModuleId := mt_ModuleId t;
            bi_Description := cmb_Description req;
            bi_TenantId := tenantIDValue (cmb_TenantId req);
            bi_FullBackup := fullBackupFlag (cmb_TenantId req);
            bi_Status := "failed"; bi_SizeBytes := 0; bi_EntityCounts := ∅;
            bi_CreatedAt := Some now; bi_CreatedBy := username; bi_Version := "";
            bi_Encrypted := false; bi_Warnings := [err] |} in
          mret info
      | inl result =>
          let info := {|
            bi_Id := backupID; bi_ModuleId := mt_ModuleId t;
            bi_Description := cmb_Description req;
            bi_TenantId := er_TenantID result;
            bi_FullBackup := fullBackupFlag (cmb_TenantId req);
            bi_Status := "completed";
            bi_SizeBytes := Z.of_nat (length (er_Data result));
            bi_EntityCounts := er_EntityCounts result;
            bi_CreatedAt := Some now; bi_CreatedBy := username;
            bi_Version := er_Version result; bi_Encrypted := false;
            bi_Warnings := [] |} in
          info ← wrapErr "save backup: " (SaveModuleBackup s info (er_Data result) (cmb_Password req)) ;
          mret info
      end
  end.

(** The [moduleResult] struct of [CreateFullBackup]; [None] is nil. *)
Record moduleResult := {
  mr_target : option ModuleTarget;
  mr_result : option ExportResult;
  mr_err : option string
}.

Definition zeroModuleResult : moduleResult :=
  {| mr_target := None; mr_result := None; mr_err := None |}.

(** What the goroutine for target [t] stores into [results[idx]]. *)
Definition exportTask (req : CreateFullBackupRequest) (t : ModuleTarget) : moduleResult :=
  match ExportBackup t (cfb_TenantId req) (cfb_IncludeSecrets req) with
  | inl r => {| mr_target := Some t; mr_result := Some r; mr_err := None |}
  | inr e => {| mr_target := Some t; mr_result := None; mr_err := Some e |}
  end.

(** The fan-out: the goroutines perform their writes [results[idx] = ...]
    in the order [schedule] (the order in which they finish). *)
Fixpoint runExports (req : CreateFullBackupRequest) (schedule : list nat)
    (results : list moduleResult) : list moduleResult :=
  match schedule with
  | [] => results
  | idx :: rest =>
      match cfb_Targets req !! idx with
      | Some t => runExports req rest (<[idx := exportTask req t]> results)
      | None => runExports req rest results
      end
  end.

Definition nilDeref {A} : Result A :=
  Panic "runtime error: invalid memory address or nil pointer dereference".

(** The aggregation loop [for _, mr := range results]. *)
Fixpoint aggregate (fullBackup : bool) (rs : list moduleResult)
    (moduleBackups : list BackupInfo) (moduleData : gmap string bytes)
    (totalSize : Z) (errors : list string)
    : Result (list BackupInfo * gmap string bytes * Z * list string) :=
  match rs with
  | [] => Ok (moduleBackups, moduleData, totalSize, errors)
  | mr :: rest =>
      match mr_err mr with
      | Some e =>
          match mr_target mr with
          | None => nilDeref
          | Some t =>
              let failed := {|
                bi_Id := ""; bi_ModuleId := mt_ModuleId t; bi_Description := "";
                bi_TenantId := 0; bi_FullBackup := false; bi_Status := "failed";
                bi_SizeBytes := 0; bi_EntityCounts := ∅; bi_CreatedAt := None;
                bi_CreatedBy := ""; bi_Version := ""; bi_Encrypted := false;
                bi_Warnings := [e] |} in
              aggregate fullBackup rest (moduleBackups ++ [failed]) moduleData totalSize
                (errors ++ [mt_ModuleId t +:+ ": " +:+ e])
          end
      | None =>
          match mr_target mr, mr_result mr with
          | Some t, Some r =>
              let completed := {|
                bi_Id := ""; bi_ModuleId := mt_ModuleId t; bi_Description := "";
                bi_TenantId := er_TenantID r; bi_FullBackup := fullBackup;
                bi_Status := "completed";
                bi_SizeBytes := Z.of_nat (length (er_Data r));
                bi_EntityCounts := er_EntityCounts r; bi_CreatedAt := None;
                bi_CreatedBy := ""; bi_Version := er_Version r;
                bi_Encrypted := false; bi_Warnings := [] |} in
              aggregate fullBackup rest (moduleBackups ++ [completed])
                (<[mt_ModuleId t := er_Data r]> moduleData)
                (int64 (totalSize + Z.of_nat (length (er_Data r)))%Z) errors
          | _, _ => nilDeref
          end
      end
  end.

(** [CreateFullBackup]; [schedule] is the completion order of the export
    goroutines ([wg.Wait()] returns once each has run). *)
Definition CreateFullBackup (s : BackupStorage) (username : string) (now : Z)
    (backupID : string) (schedule : list nat) (req : CreateFullBackupRequest)
    : M FullBackupInfo :=
  if decide (length (cfb_Targets req) = 0) then throw "at least one target is required"
  else
    let results := runExports req schedule
                     (replicate (length (cfb_Targets req)) zeroModuleResult) in
    let fullBackup := fullBackupFlag (cfb_TenantId req) in
    match aggregate fullBackup results [] ∅ 0 [] with
    | Ok (moduleBackups, moduleData, totalSize, errors) =>
        let status :=
          if decide (0 < length errors /\ length errors = length (cfb_Targets req))
          then "failed"
          else if decide (0 < length errors) then "partial"
          else "completed" in
        let info := {|
          fb_Id := backupID; fb_Description := cfb_Description req;
          fb_TenantId := tenantIDValue (cfb_TenantId req);
          fb_FullBackup := fullBackup; fb_Status := status;
          fb_TotalSizeBytes := totalSize; fb_ModuleBackups := moduleBackups;
          fb_CreatedAt := Some now; fb_CreatedBy := username;
          fb_Errors := errors; fb_Encrypted := false |} in
        info ← wrapErr "save full backup: " (SaveFullBackup s info moduleData (cfb_Password req)) ;
        mret info
    | Err e => throw e
    | Panic p => liftR (Panic p)
    end.

Definition copyEntityImportResult (r : EntityImportResult) : EntityImportResult := {|
  eir_EntityType := eir_EntityType r; eir_Total := eir_Total r;
  eir_Created := eir_Created r; eir_Updated := eir_Updated r;
  eir_Skipped := eir_Skipped r; eir_Failed := eir_Failed r |}.

Definition failedRestore (moduleID err : string) : ModuleRestoreResult := {|
  mrr_ModuleId := moduleID; mrr_Success := false; mrr_Error := err;
  mrr_Results := []; mrr_Warnings := [] |}.

(** The loop [for _, mb := range info.ModuleBackups] of
    [RestoreFullBackup], with [moduleResults] and [allSuccess]. *)
Fixpoint restoreModules (s : BackupStorage) (req : RestoreFullBackupRequest)
    (targetMap : gmap string ModuleTarget) (mbs : list BackupInfo)
    (moduleResults : list ModuleRestoreResult) (allSuccess : bool)
    : M (list ModuleRestoreResult * bool) :=
  match mbs with
  | [] => mret (moduleResults, allSuccess)
  | mb :: rest =>
      if decide (bi_Status mb ≠ "completed") then
        restoreModules s req targetMap rest moduleResults allSuccess
      else
        match targetMap !! bi_ModuleId mb with
        | None =>
            restoreModules s req targetMap rest
              (moduleResults ++ [failedRestore (bi_ModuleId mb)
                                   "no target endpoint provided for this module"]) false
        | Some target =>
            fun w =>
              match LoadFullBackupModuleData s (rfb_BackupId req) (bi_ModuleId mb)
                      (rfb_Password req) w with
              | (Err e, w') =>
                  restoreModules s req targetMap rest
                    (moduleResults ++ [failedRestore (bi_ModuleId mb) ("load data: " +:+ e)])
                    false w'
              | (Panic p, w') => (Panic p, w')
              | (Ok data, w') =>
                  match ImportBackup target data (rfb_Mode req) with
                  | inr e =>
                      restoreModules s req targetMap rest
                        (moduleResults ++ [failedRestore (bi_ModuleId mb) e]) false w'
                  | inl resp =>
                      restoreModules s req targetMap rest
                        (moduleResults ++ [{|
                           mrr_ModuleId := bi_ModuleId mb;
                           mrr_Success := ir_Success resp; mrr_Error := "";
                           mrr_Results := map copyEntityImportResult (ir_Results resp);
                           mrr_Warnings := ir_Warnings resp |}])
                        allSuccess w'
                  end
              end
        end
  end.

(** [targetMap[t.ModuleId] = t] for each request target, in order. *)
Definition buildTargetMap (targets : list ModuleTarget) : gmap string ModuleTarget :=
  foldl (fun m t => <[mt_ModuleId t := t]> m) ∅ targets.

(** [RestoreFullBackup]. *)
Definition RestoreFullBackup (s : BackupStorage) (req : RestoreFullBackupRequest)
    : M RestoreFullBackupResponse :=
  if decide (length (rfb_Targets req) = 0) then throw "at least one target is required"
  else
    info ← wrapErr "get full backup: " (GetFullBackup s (rfb_BackupId req)) ;
    let targetMap := buildTargetMap (rfb_Targets req) in
    '(moduleResults, allSuccess) ←
      restoreModules s req targetMap (fb_ModuleBackups info) [] true ;
    mret {| rfbr_Success := allSuccess; rfbr_ModuleResults := moduleResults |}.

(** [normalizePagination]. *)
Definition normalizePagination (page pageSize : Z) : Z * Z :=
  let page := if decide (page <= 0)%Z then 1%Z else page in
  let pageSize := if decide (pageSize <= 0)%Z then 20%Z else pageSize in
  let pageSize := if decide (pageSize > 100)%Z then 100%Z else pageSize in
  (page, pageSize).

(** Go's [s[lo:hi]]: it panics unless [0 <= lo <= hi <= cap(s)]; the
    slices sliced here have [hi <= len(s)] whenever [hi >= 0]. *)
Definition goSlice {A} (l : list A) (lo hi : Z) : Result (list A) :=
  if decide (0 <= lo /\ lo <= hi /\ hi <= Z.of_nat (length l))%Z
  then Ok (take (Z.to_nat (hi - lo)%Z) (drop (Z.to_nat lo) l))
  else Panic "runtime error: slice bounds out of range".

(** [ListBackups]; [start], [end] and [total] are [int32]. *)
Definition ListBackups (s : BackupStorage) (req : ListBackupsRequest)
    : M ListBackupsResponse :=
  backups ← wrapErr "list backups: " (ListModuleBackups s (lb_ModuleId req) (lb_TenantId req)) ;
  let total := int32 (Z.of_nat (length backups)) in
  let '(page, pageSize) := normalizePagination (lb_Page req) (lb_PageSize req) in
  let start := int32 (int32 (page - 1) * pageSize)%Z in
  if decide (start >= total)%Z then mret {| lbr_Backups := []; lbr_Total := total |}
  else
    let end_ := int32 (start + pageSize)%Z in
    let end_ := if decide (end_ > total)%Z then total else end_ in
    items ← liftR (goSlice backups start end_) ;
    mret {| lbr_Backups := items; lbr_Total := total |}.

(** [ListFullBackups]. *)
Definition ListFullBackups (s : BackupStorage) (req : ListFullBackupsRequest)
    : M ListFullBackupsResponse :=
  backups ← wrapErr "list full backups: " (StorageListFullBackups s (lfb_TenantId req)) ;
  let total := int32 (Z.of_nat (length backups)) in
  let '(page, pageSize) := normalizePagination (lfb_Page req) (lfb_PageSize req) in
  let start := int32 (int32 (page - 1) * pageSize)%Z in
  if decide (start >= total)%Z then mret {| lfbr_Backups := []; lfbr_Total := total |}
  else
    let end_ := int32 (start + pageSize)%Z in
    let end_ := if decide (end_ > total)%Z then total else end_ in
    items ← liftR (goSlice backups start end_) ;
    mret {| lfbr_Backups := items; lfbr_Total := total |}.

(** Whether the export of target [t] returns an error. *)
Definition exportFailed (req : CreateFullBackupRequest) (t : ModuleTarget) : bool :=
  match ExportBackup t (cfb_TenantId req) (cfb_IncludeSecrets req) with
  | inl _ => false
  | inr _ => true
  end.

(** The sum of [SizeBytes] over the entries with status "completed". *)
Fixpoint sumCompletedSizes (l : list BackupInfo) : Z :=
  match l with
  | [] => 0
  | b :: rest =>
      (if decide (bi_Status b = "completed") then bi_SizeBytes b else 0) + sumCompletedSizes rest
  end%Z.

(** ** More of the store and of the engine *)

(** [readModuleMetadata], which [GetModuleBackup] calls under the read lock. *)
Definition GetModuleBackup (s : BackupStorage) (backupID : string) : M BackupInfo :=
  metaBytes ← wrapErr "read metadata: " (readFile (moduleDir s backupID) "metadata.json") ;
  match unmarshalWithFallback metaBytes protoReset with
  | (info, None) => mret info
  | (_, Some err) => throw ("unmarshal metadata: " +:+ err)
  end.

(** [DeleteModuleBackup(backupID)]; a [Stat] error other than "not exist"
    (an I/O failure) is not modelled. *)
Definition DeleteModuleBackup (s : BackupStorage) (backupID : string) : M unit :=
  let dir := moduleDir s backupID in
  found ← statExists dir ;
  if (found : bool) then removeAll dir else throw ("backup not found: " +:+ backupID).


(** The engine's [GetBackup] and [DeleteBackup] (the latter's response is
    [Success: true]). *)
Definition GetBackup (s : BackupStorage) (id : string) : M BackupInfo :=
  wrapErr "get backup: " (GetModuleBackup s id).

Definition DeleteBackup (s : BackupStorage) (id : string) : M bool :=
  wrapErr "delete backup: " (DeleteModuleBackup s id) ;; mret true.

(** [RestoreModuleBackup]. *)
Definition RestoreModuleBackup (s : BackupStorage) (req : RestoreModuleBackupRequest)
    : M RestoreModuleBackupResponse :=
  match rmb_Target req with
  | None => throw "target is required"
  | Some t =>
      data ← wrapErr "load backup data: "
               (LoadModuleBackupData s (rmb_BackupId req) (rmb_Password req)) ;
      match ImportBackup t data (rmb_Mode req) with
      | inr e => throw ("import backup to " +:+ mt_ModuleId t +:+ ": " +:+ e)
      | inl resp =>
          mret {| rmbr_Success := ir_Success resp;
                  rmbr_Results := map copyEntityImportResult (ir_Results resp);
                  rmbr_Warnings := ir_Warnings resp |}
      end
  end.

(** [t.Format("20060102")] of the UTC time [secs] seconds after the epoch. *)
Variable formatDate : Z -> string.

(** Go's [s[:hi]] on a string: it panics when [hi > len(s)]. *)
Definition goSliceString (str : string) (hi : nat) : Result string :=
  if decide (hi <= String.length str) then Ok (String.substring 0 hi str)
  else Panic "runtime error: slice bounds out of range".

(** [DownloadBackup]; [CreatedAt.AsTime()] of a nil timestamp is the
    epoch. *)
Definition DownloadBackup (s : BackupStorage) (req : DownloadBackupRequest)
    : M DownloadBackupResponse :=
  info ← wrapErr "get backup metadata: " (GetModuleBackup s (dlb_Id req)) ;
  if decide (bi_Encrypted info = true /\ dlb_Password req = "") then
    throw "backup is encrypted: password required"
  else
    data ← wrapErr "load backup data: " (LoadModuleBackupData s (dlb_Id req) (dlb_Password req)) ;
    idPrefix ← liftR (goSliceString (bi_Id info) 8) ;
    mret {| dlbr_Data := data;
            dlbr_Filename := bi_ModuleId info +:+ "-" +:+ idPrefix +:+ "-" +:+
                             formatDate (default 0%Z (bi_CreatedAt info)) +:+ ".json" |}.

(** [filepath.Join(s.basePath, "modules")] and [filepath.Join(s.basePath, "full")]. *)
Definition modulesDir (s : BackupStorage) : string := basePath s +:+ "/modules".
Definition fullsDir (s : BackupStorage) : string := basePath s +:+ "/full".

(** The filters of [storage.ListModuleBackups] and [storage.ListFullBackups]. *)
Definition keepModuleBackup (moduleID : string) (tenantID : option Z) (info : BackupInfo)
    : bool :=
  (String.eqb moduleID "" || String.eqb (bi_ModuleId info) moduleID) &&
  match tenantID with None => true | Some t => bool_decide (bi_TenantId info = t) end.

Definition keepFullBackup (tenantID : option Z) (info : FullBackupInfo) : bool :=
  match tenantID with None => true | Some t => bool_decide (fb_TenantId info = t) end.

(** The loop of [storage.ListModuleBackups] over the entries: an entry
    whose metadata does not load is logged and skipped. *)
Fixpoint collectModuleBackups (s : BackupStorage) (moduleID : string) (tenantID : option Z)
    (names : list string) : M (list BackupInfo) :=
  match names with
  | [] => mret []
  | name :: rest => fun w =>
      match GetModuleBackup s name w with
      | (Ok info, w1) =>
          if keepModuleBackup moduleID tenantID info then
            (backups ← collectModuleBackups s moduleID tenantID rest ; mret (info :: backups)) w1
          else collectModuleBackups s moduleID tenantID rest w1
      | (Err _, w1) => collectModuleBackups s moduleID tenantID rest w1
      | (Panic p, w1) => (Panic p, w1)
      end
  end.

Fixpoint collectFullBackups (s : BackupStorage) (tenantID : option Z) (names : list string)
    : M (list FullBackupInfo) :=
  match names with
  | [] => mret []
  | name :: rest => fun w =>
      match GetFullBackup s name w with
      | (Ok info, w1) =>
          if keepFullBackup tenantID info then
            (backups ← collectFullBackups s tenantID rest ; mret (info :: backups)) w1
          else collectFullBackups s tenantID rest w1
      | (Err _, w1) => collectFullBackups s tenantID rest w1
      | (Panic p, w1) => (Panic p, w1)
      end
  end.

(** [sort.Slice(backups, func(i, j int) bool { return ti.After(tj) })]:
    Go's unstable pattern-defeating quicksort, of which only the
    permutation matters here. *)
Variable sortModuleBackups : list BackupInfo -> list BackupInfo.
Variable sortFullBackups : list FullBackupInfo -> list FullBackupInfo.
Hypothesis sortModuleBackups_perm : forall l, sortModuleBackups l ≡ₚ l.
Hypothesis sortFullBackups_perm : forall l, sortFullBackups l ≡ₚ l.

(** [storage.ListModuleBackups(moduleID, tenantID)]; a missing modules
    directory gives [nil, nil]. *)
Definition ListModuleBackupsImpl (s : BackupStorage) (moduleID : string) (tenantID : option Z)
    : M (list BackupInfo) :=
  fun w =>
    match readDir (modulesDir s) w with
    | NotExist => (Ok [], w)
    | ListError e => (Err ("read modules dir: " +:+ e), w)
    | Listing names =>
        (backups ← collectModuleBackups s moduleID tenantID names ;
         mret (sortModuleBackups backups)) w
    end.

(** [storage.ListFullBackups(tenantID)]. *)
Definition ListFullBackupsImpl (s : BackupStorage) (tenantID : option Z)
    : M (list FullBackupInfo) :=
  fun w =>
    match readDir (fullsDir s) w with
    | NotExist => (Ok [], w)
    | ListError e => (Err ("read full dir: " +:+ e), w)
    | Listing names =>
        (backups ← collectFullBackups s tenantID names ;
         mret (sortFullBackups backups)) w
    end.

(** * Properties *)

(** ** The encryption envelope *)

Lemma DecryptData_encryptData (salt nonce data : bytes) (password : string) :
  length salt = saltSize -> length nonce = nonceSize ->
  DecryptData (salt ++ nonce ++
    gcmSeal (pbkdf2Key password salt pbkdf2Iterations keySize) nonce data) password
  = Ok data.
Proof.
  intros Hs Hn. unfold DecryptData.
  rewrite decide_False.
  2:{ rewrite !length_app, gcmSeal_length, Hs, Hn. unfold saltSize, nonceSize. lia. }
  rewrite <- Hs, take_app_length, drop_app_length, <- Hn, take_app_length.
  rewrite Hs, Hn.
  replace (saltSize + nonceSize) with (length (salt ++ nonce))
    by (rewrite length_app; lia).
  rewrite app_assoc, drop_app_length, gcmOpen_gcmSeal. reflexivity.
Qed.

Lemma encryptData_run (data : bytes) (password : string) (w : World) :
  encryptData data password w =
  (let salt := map (randByte (entropy w)) (seq 0 saltSize) in
   let nonce := map (randByte (S (entropy w))) (seq 0 nonceSize) in
   (Ok (salt ++ nonce ++
        gcmSeal (pbkdf2Key password salt pbkdf2Iterations keySize) nonce data),
    mkWorld (dirs w) (files w) (S (S (entropy w))))).
Proof. reflexivity. Qed.

(** C6: [DecryptData] refuses every envelope shorter than
    salt(32) + nonce(12) + 1 = 45 bytes with an error before any key
    derivation or decryption, and returns an error whenever the GCM tag
    does not authenticate the ciphertext under the derived key. *)
Theorem DecryptData_short_or_forged_fails (encrypted : bytes) (password : string) :
  (length encrypted < 45 ->
     DecryptData encrypted password = Err "encrypted data too short") /\
  (gcmOpen (pbkdf2Key password (take saltSize encrypted) pbkdf2Iterations keySize)
           (take nonceSize (drop saltSize encrypted))
           (drop (saltSize + nonceSize) encrypted) = None ->
     exists msg, DecryptData encrypted password = Err msg).
Proof.
  split.
  - intros Hlen. unfold DecryptData. rewrite decide_True; [reflexivity|].
    unfold saltSize, nonceSize. lia.
  - intros Hopen. unfold DecryptData.
    destruct (decide _); [eauto|]. rewrite Hopen. eauto.
Qed.

(** ** Metadata decoding *)

(** C9: [unmarshalWithFallback] keeps the canonical (protojson) decoding
    when it parses, and never runs the legacy decoder then; when it fails
    the result is the legacy (encoding/json) decoding of a reset message,
    whatever the failed attempt left in the message; an error is returned
    exactly when both decoders fail. *)
Theorem unmarshalWithFallback_spec {T} `{ProtoMessage T} (data : bytes) (msg : T) :
  (snd (protojsonUnmarshal data msg) = None ->
     unmarshalWithFallback data msg = protojsonUnmarshal data msg) /\
  (is_Some (snd (protojsonUnmarshal data msg)) ->
     fst (unmarshalWithFallback data msg) = fst (jsonUnmarshal data protoReset)) /\
  (is_Some (snd (unmarshalWithFallback data msg)) <->
     is_Some (snd (protojsonUnmarshal data msg)) /\
     is_Some (snd (jsonUnmarshal data protoReset))).
Proof.
  unfold unmarshalWithFallback.
  destruct (protojsonUnmarshal data msg) as [m1 [e1|]]; simpl;
    [destruct (jsonUnmarshal data protoReset) as [m2 [e2|]]; simpl|].
  - split; [discriminate|]. split; [done|]. split; [done|]. intros _. done.
  - split; [discriminate|]. split; [done|]. split; [intros [? ?]; discriminate|].
    intros [_ [? ?]]; discriminate.
  - split; [done|]. split; [intros [? ?]; discriminate|].
    split; [intros [? ?]; discriminate|]. intros [[? ?] _]; discriminate.
Qed.

(** ** Pagination *)

Lemma normalizePagination_spec (page pageSize : Z) :
  fst (normalizePagination page pageSize) = (if decide (page <= 0) then 1 else page)%Z /\
  snd (normalizePagination page pageSize) =
    (if decide (pageSize <= 0) then 20
     else if decide (pageSize > 100) then 100 else pageSize)%Z.
Proof.
  unfold normalizePagination.
  destruct (decide (page <= 0)%Z), (decide (pageSize <= 0)%Z); simpl;
    repeat (destruct (decide _); simpl); split; try reflexivity; lia.
Qed.

Lemma ListBackups_total (s : BackupStorage) (req : ListBackupsRequest) (w w' : World)
    (backups : list BackupInfo) (resp : ListBackupsResponse) (w'' : World) :
  ListModuleBackups s (lb_ModuleId req) (lb_TenantId req) w = (Ok backups, w') ->
  ListBackups s req w = (Ok resp, w'') ->
  lbr_Total resp = int32 (Z.of_nat (length backups)).
Proof.
  intros Hl Hr. unfold ListBackups, mbind, M_bind, bind, wrapErr in Hr.
  rewrite Hl in Hr.
  destruct (normalizePagination _ _) as [page pageSize].
  destruct (decide _).
  - inversion Hr. reflexivity.
  - unfold liftR in Hr. destruct (goSlice _ _ _); inversion Hr; reflexivity.
Qed.

(** C7 (failing input): with [page = 2147483647] and [pageSize = 100]
    the offset [(page-1)*pageSize = 214748364600] is at least the total,
    but the [int32] product wraps to [-200]; the guard [start >= total]
    does not fire and the slice [backups[-200:-100]] panics, in both
    [ListBackups] and [ListFullBackups], instead of returning an empty
    page with the total. *)
Theorem ListBackups_page_overflow_panics (s : BackupStorage)
    (req : ListBackupsRequest) (freq : ListFullBackupsRequest) (w : World) :
  ListModuleBackups s (lb_ModuleId req) (lb_TenantId req) w = (Ok [], w) ->
  StorageListFullBackups s (lfb_TenantId freq) w = (Ok [], w) ->
  lb_Page req = 2147483647%Z -> lb_PageSize req = 100%Z ->
  lfb_Page freq = 2147483647%Z -> lfb_PageSize freq = 100%Z ->
  ((lb_Page req - 1) * lb_PageSize req >= 0)%Z /\
  ListBackups s req w = (Panic "runtime error: slice bounds out of range", w) /\
  ListFullBackups s freq w = (Panic "runtime error: slice bounds out of range", w).
Proof.
  intros Hl Hf Hp Hps Hfp Hfps. split; [rewrite Hp, Hps; lia|]. split.
  - unfold ListBackups, mbind, M_bind, bind, wrapErr. rewrite Hl, Hp, Hps.
    reflexivity.
  - unfold ListFullBackups, mbind, M_bind, bind, wrapErr. rewrite Hf, Hfp, Hfps.
    reflexivity.
Qed.

(** ** Storage round trip *)

(** C2: for every payload and every password (empty or not), once
    [SaveModuleBackup(info, data, password)] has succeeded,
    [LoadModuleBackupData(info.Id, password)] returns exactly [data]:
    gzip, then (for a non-empty password) the AES-GCM envelope, are undone
    byte for byte.  For the empty password the backup directory must not
    hold an encrypted payload from before, which holds for the fresh
    UUID that [CreateModuleBackup] draws. *)
Theorem SaveModuleBackup_LoadModuleBackupData_roundtrip (s : BackupStorage)
    (info info' : BackupInfo) (data : bytes) (password : string) (w w' : World) :
  (password <> "" \/ files w !! (moduleDir s (bi_Id info), "data.json.gz.enc") = None) ->
  SaveModuleBackup s info data password w = (Ok info', w') ->
  fst (LoadModuleBackupData s (bi_Id info) password w') = Ok data.
Proof.
  intros Hfresh Hsave.
  unfold SaveModuleBackup, mbind, M_bind, bind, mret, M_ret, ret, wrapErr, mkdirAll, liftR,
    gzipCompress in Hsave.
  destruct (decide (password ≠ "")) as [Hp|Hp].
  - rewrite encryptData_run in Hsave. cbv zeta in Hsave. cbn [entropy dirs files] in Hsave.
    assert (Hls : length (map (randByte (entropy w)) (seq 0 saltSize)) = saltSize)
      by (rewrite length_map, length_seq; reflexivity).
    assert (Hln : length (map (randByte (S (entropy w))) (seq 0 nonceSize)) = nonceSize)
      by (rewrite length_map, length_seq; reflexivity).
    revert Hls Hln Hsave.
    generalize (map (randByte (entropy w)) (seq 0 saltSize)) as salt.
    generalize (map (randByte (S (entropy w))) (seq 0 nonceSize)) as nonce.
    intros nonce salt Hls Hln Hsave. cbn [fst snd entropy] in Hsave.
    destruct (protojsonMarshal _) as [mb| |]; inversion Hsave; subst; clear Hsave.
    unfold LoadModuleBackupData, mbind, M_bind, bind, wrapErr, statOk, readFile,
      liftR, throw, gzipDecompress; cbn [files].
    rewrite lookup_insert_eq, bool_decide_true by eauto.
    rewrite decide_False by done. cbn [files].
    rewrite lookup_insert_eq. cbv beta iota zeta.
    rewrite DecryptData_encryptData by assumption.
    apply gzipDecode_gzipEncode.
  - assert (password = "") as -> by (destruct (decide (password = "")); tauto).
    destruct Hfresh as [Hfresh|Hfresh]; [congruence|].
    cbn [fst snd] in Hsave.
    destruct (protojsonMarshal _) as [mb| |]; inversion Hsave; subst; clear Hsave.
    unfold LoadModuleBackupData, mbind, M_bind, bind, wrapErr, statOk, readFile,
      liftR, throw, gzipDecompress; cbn [files].
    rewrite lookup_insert_ne by congruence.
    rewrite lookup_insert_ne by congruence.
    rewrite Hfresh, bool_decide_false by (intros [? ?]; discriminate).
    cbn [files]. rewrite lookup_insert_eq. cbv beta iota zeta.
    apply gzipDecode_gzipEncode.
Qed.

(** ** Single-module backup *)

(** C1 (failing input): when [ExportBackup] fails, [CreateModuleBackup]
    returns without error a record with status "failed" whose warnings
    are the error message, but the world is left as it was: the branch
    commented "Save a failed backup record" never calls the store, so no
    metadata record is saved. *)
Theorem CreateModuleBackup_export_failure_saves_nothing (s : BackupStorage)
    (username : string) (now : Z) (backupID : string)
    (req : CreateModuleBackupRequest) (t : ModuleTarget) (err : string) (w : World) :
  cmb_Target req = Some t ->
  ExportBackup t (cmb_TenantId req) (cmb_IncludeSecrets req) = inr err ->
  exists info,
    CreateModuleBackup s username now backupID req w = (Ok info, w) /\
    bi_Status info = "failed" /\ bi_Warnings info = [err] /\ bi_Id info = backupID /\
    files w !! (moduleDir s backupID, "metadata.json") =
      files (snd (CreateModuleBackup s username now backupID req w))
        !! (moduleDir s backupID, "metadata.json").
Proof.
  intros Ht He. unfold CreateModuleBackup. rewrite Ht, He.
  eexists. split; [reflexivity|]. repeat split.
Qed.

(** ** Full backup: fan-out and aggregation *)

Lemma int64_add_int64 (a b : Z) : int64 (int64 a + b) = int64 (a + b).
Proof.
  unfold int64.
  replace ((a + 2 ^ 63) mod 2 ^ 64 - 2 ^ 63 + b + 2 ^ 63)%Z
    with ((a + 2 ^ 63) mod 2 ^ 64 + b)%Z by lia.
  rewrite Zplus_mod_idemp_l. f_equal. f_equal. lia.
Qed.

Lemma runExports_lookup (req : CreateFullBackupRequest) (schedule : list nat)
    (results : list moduleResult) (i : nat) :
  Forall (fun j => j < length (cfb_Targets req)) schedule ->
  length results = length (cfb_Targets req) ->
  runExports req schedule results !! i =
    if decide (i ∈ schedule) then exportTask req <$> cfb_Targets req !! i
    else results !! i.
Proof.
  revert results. induction schedule as [|j rest IH]; intros results Hall Hlen.
  - simpl. reflexivity.
  - apply Forall_cons in Hall as [Hj Hrest]. simpl.
    destruct (cfb_Targets req !! j) as [tj|] eqn:Etj;
      [|apply lookup_ge_None in Etj; lia].
    rewrite IH by (try done; rewrite length_insert; done).
    destruct (decide (i ∈ rest)) as [Hin|Hin].
    + rewrite decide_True by (apply elem_of_cons; auto). reflexivity.
    + destruct (decide (i = j)) as [->|Hne].
      * rewrite decide_True by (apply elem_of_cons; auto).
        rewrite list_lookup_insert_eq by lia. rewrite Etj. reflexivity.
      * rewrite decide_False by (rewrite elem_of_cons; tauto).
        rewrite list_lookup_insert_ne by congruence. reflexivity.
Qed.

(** Once every goroutine has run ([schedule] is a permutation of the
    target indices), [results[i]] is the export of [targets[i]], whatever
    the completion order. *)
Lemma runExports_permutation (req : CreateFullBackupRequest) (schedule : list nat) :
  schedule ≡ₚ seq 0 (length (cfb_Targets req)) ->
  runExports req schedule (replicate (length (cfb_Targets req)) zeroModuleResult) =
    map (exportTask req) (cfb_Targets req).
Proof.
  intros Hperm. apply list_eq. intros i.
  rewrite runExports_lookup.
  - rewrite list_lookup_fmap. destruct (decide (i ∈ schedule)) as [Hin|Hin];
      [reflexivity|].
    rewrite Hperm, elem_of_seq in Hin.
    rewrite (proj1 (lookup_replicate_None _ _ _)) by lia.
    symmetry. apply fmap_None, lookup_ge_None. lia.
  - apply Forall_forall. intros j Hj. rewrite Hperm, elem_of_seq in Hj. lia.
  - apply length_replicate.
Qed.

Lemma aggregate_exports (req : CreateFullBackupRequest) (fb : bool)
    (ts : list ModuleTarget) (mbs : list BackupInfo) (md : gmap string bytes)
    (x : Z) (errs : list string) :
  exists added md' errs',
    aggregate fb (map (exportTask req) ts) mbs md (int64 x) errs =
      Ok (mbs ++ added, md', int64 (x + sumCompletedSizes added), errs ++ errs') /\
    map bi_ModuleId added = map mt_ModuleId ts /\
    map bi_Status added =
      map (fun t => if exportFailed req t then "failed" else "completed") ts /\
    length errs' = length (filter (fun t => exportFailed req t = true) ts).
Proof.
  revert mbs md x errs. induction ts as [|t ts IH]; intros mbs md x errs.
  - exists [], md, []. simpl. rewrite !app_nil_r, Z.add_0_r. done.
  - cbn [map aggregate].
    destruct (ExportBackup t (cfb_TenantId req) (cfb_IncludeSecrets req)) as [r|e] eqn:Ee;
      [assert (Et : exportTask req t =
                 {| mr_target := Some t; mr_result := Some r; mr_err := None |})
         by (unfold exportTask; rewrite Ee; reflexivity)
      |assert (Et : exportTask req t =
                 {| mr_target := Some t; mr_result := None; mr_err := Some e |})
         by (unfold exportTask; rewrite Ee; reflexivity)];
      rewrite Et; cbn [mr_err mr_target mr_result].
    + assert (Hf : exportFailed req t = false) by (unfold exportFailed; rewrite Ee; done).
      rewrite int64_add_int64.
      match goal with
      | |- context [aggregate fb (map (exportTask req) ts) (mbs ++ [?c]) ?md1 (int64 ?y) ?errs1] =>
          destruct (IH (mbs ++ [c]) md1 y errs1) as (added & md' & errs' & Hagg & Hids & Hst & Hlen);
          rewrite Hagg; exists (c :: added), md', errs'
      end.
      rewrite <- app_assoc. cbn [app map sumCompletedSizes bi_ModuleId bi_Status bi_SizeBytes].
      split; [rewrite Z.add_assoc; reflexivity|].
      split; [congruence|]. split; [rewrite Hf, Hst; reflexivity|].
      rewrite filter_cons_False by (rewrite Hf; discriminate). exact Hlen.
    + assert (Hf : exportFailed req t = true) by (unfold exportFailed; rewrite Ee; done).
      match goal with
      | |- context [aggregate fb (map (exportTask req) ts) (mbs ++ [?c]) ?md1 (int64 ?y) ?errs1] =>
          destruct (IH (mbs ++ [c]) md1 y errs1) as (added & md' & errs' & Hagg & Hids & Hst & Hlen);
          rewrite Hagg; exists (c :: added), md'
      end.
      eexists (_ :: errs').
      rewrite <- !app_assoc. cbn [app map sumCompletedSizes bi_ModuleId bi_Status bi_SizeBytes].
      split; [rewrite Z.add_0_l; reflexivity|].
      split; [congruence|]. split; [rewrite Hf, Hst; reflexivity|].
      rewrite filter_cons_True by (rewrite Hf; reflexivity). cbn [length]. congruence.
Qed.

(** [SaveFullBackup] returns the manifest it was given, marked encrypted
    when a password is set. *)
Lemma SaveFullBackup_Ok (s : BackupStorage) (info : FullBackupInfo)
    (md : gmap string bytes) (password : string) (w : World) info' w' :
  SaveFullBackup s info md password w = (Ok info', w') ->
  info' = if decide (password ≠ "") then setFullEncrypted info else info.
Proof.
  unfold SaveFullBackup, mbind, M_bind, bind, mret, M_ret, ret, wrapErr, liftR,
    mkdirAll, writeFile.
  cbv beta iota zeta.
  destruct (writeModuleData _ _ _ _) as [[u|e|e] w1]; try discriminate.
  destruct (protojsonMarshal _) as [mb|e|e]; try discriminate.
  intros Hs. injection Hs as <- _. reflexivity.
Qed.

Lemma filter_false_length (f : ModuleTarget -> bool) (ts : list ModuleTarget) :
  length (filter (fun t => f t = true) ts) = 0 <-> Forall (fun t => f t = false) ts.
Proof.
  induction ts as [|t ts IH]; [split; auto|].
  rewrite filter_cons, Forall_cons. destruct (f t) eqn:Ef.
  - rewrite decide_True by done. cbn [length]. split; [lia|intros [? _]; discriminate].
  - rewrite decide_False by discriminate. rewrite IH. tauto.
Qed.

Lemma filter_true_length (f : ModuleTarget -> bool) (ts : list ModuleTarget) :
  length (filter (fun t => f t = true) ts) = length ts <-> Forall (fun t => f t = true) ts.
Proof.
  induction ts as [|t ts IH]; [split; auto|].
  rewrite filter_cons, Forall_cons. destruct (f t) eqn:Ef.
  - rewrite decide_True by done. cbn [length]. rewrite <- IH. split; [intros; split; [done|lia]|].
    intros [_ ->]. reflexivity.
  - rewrite decide_False by discriminate. cbn [length].
    pose proof (length_filter (fun t => f t = true) ts). split; [lia|intros [? _]; discriminate].
Qed.

(** The shape of a manifest [CreateFullBackup] returns, once every export
    goroutine has run. *)
Lemma CreateFullBackup_Ok (s : BackupStorage) (username : string) (now : Z)
    (backupID : string) (schedule : list nat) (req : CreateFullBackupRequest)
    (w : World) info w' :
  schedule ≡ₚ seq 0 (length (cfb_Targets req)) ->
  CreateFullBackup s username now backupID schedule req w = (Ok info, w') ->
  exists errs : list string,
    length (cfb_Targets req) ≠ 0 /\
    map bi_ModuleId (fb_ModuleBackups info) = map mt_ModuleId (cfb_Targets req) /\
    map bi_Status (fb_ModuleBackups info) =
      map (fun t => if exportFailed req t then "failed" else "completed") (cfb_Targets req) /\
    fb_TotalSizeBytes info = int64 (sumCompletedSizes (fb_ModuleBackups info)) /\
    length errs = length (filter (fun t => exportFailed req t = true) (cfb_Targets req)) /\
    fb_Status info =
      (if decide (0 < length errs /\ length errs = length (cfb_Targets req)) then "failed"
       else if decide (0 < length errs) then "partial" else "completed").
Proof.
  intros Hperm. unfold CreateFullBackup.
  destruct (decide (length (cfb_Targets req) = 0)) as [Hn|Hn];
    [unfold throw; discriminate|].
  rewrite (runExports_permutation req schedule Hperm).
  destruct (aggregate_exports req (fullBackupFlag (cfb_TenantId req)) (cfb_Targets req)
              [] ∅ 0 []) as (added & md' & errs' & Hagg & Hids & Hst & Hlen).
  replace (int64 0) with 0%Z in Hagg by reflexivity.
  rewrite Hagg. cbn [app]. rewrite Z.add_0_l.
  unfold mbind, M_bind, bind, mret, M_ret, ret, wrapErr.
  match goal with
  | |- context [SaveFullBackup s ?i md' (cfb_Password req) w] =>
      destruct (SaveFullBackup s i md' (cfb_Password req) w) as [[i'|e|e] w2] eqn:Es
  end; try discriminate.
  intros Hc. injection Hc as <- _. apply SaveFullBackup_Ok in Es. subst i'.
  exists errs'.
  destruct (decide (cfb_Password req ≠ "")); cbn; repeat split; assumption.
Qed.

(** C3: once every export goroutine has run, the manifest returned by
    [CreateFullBackup] (whose target list is then non-empty) is
    "completed" iff every export succeeded, "failed" iff every export
    failed, and "partial" otherwise; [totalSizeBytes] is the [int64] sum of
    the sizes of the completed entries only. *)
Theorem CreateFullBackup_status_total (s : BackupStorage) (username : string) (now : Z)
    (backupID : string) (schedule : list nat) (req : CreateFullBackupRequest)
    (w : World) (info : FullBackupInfo) (w' : World) :
  schedule ≡ₚ seq 0 (length (cfb_Targets req)) ->
  CreateFullBackup s username now backupID schedule req w = (Ok info, w') ->
  cfb_Targets req ≠ [] /\
  (fb_Status info = "completed" <->
     Forall (fun t => exportFailed req t = false) (cfb_Targets req)) /\
  (fb_Status info = "failed" <->
     Forall (fun t => exportFailed req t = true) (cfb_Targets req)) /\
  (fb_Status info = "partial" <->
     ~ Forall (fun t => exportFailed req t = false) (cfb_Targets req) /\
     ~ Forall (fun t => exportFailed req t = true) (cfb_Targets req)) /\
  fb_TotalSizeBytes info = int64 (sumCompletedSizes (fb_ModuleBackups info)).
Proof.
  intros Hperm Hc.
  destruct (CreateFullBackup_Ok s username now backupID schedule req w info w' Hperm Hc)
    as (errs & Hn & _ & _ & Htot & Hlen & Hst).
  rewrite <- filter_false_length, <- filter_true_length, <- Hlen.
  split; [intros E; apply Hn; rewrite E; reflexivity|].
  split; [|split; [|split]]; try exact Htot; rewrite Hst;
    destruct (decide (0 < length errs /\ length errs = length (cfb_Targets req)));
    destruct (decide (0 < length errs)); split; intros; try discriminate; try lia;
    reflexivity.
Qed.

(** C8: once every export goroutine has run, whatever the order in which
    they finished, [moduleBackups[i].moduleId = targets[i].moduleId] for
    every index [i], with one entry per target. *)
Theorem CreateFullBackup_order (s : BackupStorage) (username : string) (now : Z)
    (backupID : string) (schedule : list nat) (req : CreateFullBackupRequest)
    (w : World) (info : FullBackupInfo) (w' : World) :
  schedule ≡ₚ seq 0 (length (cfb_Targets req)) ->
  CreateFullBackup s username now backupID schedule req w = (Ok info, w') ->
  length (fb_ModuleBackups info) = length (cfb_Targets req) /\
  forall i, bi_ModuleId <$> fb_ModuleBackups info !! i = mt_ModuleId <$> cfb_Targets req !! i.
Proof.
  intros Hperm Hc.
  destruct (CreateFullBackup_Ok s username now backupID schedule req w info w' Hperm Hc)
    as (errs & _ & Hids & _).
  split.
  - rewrite <- (length_map bi_ModuleId), <- (length_map mt_ModuleId), Hids. reflexivity.
  - intros i. rewrite <- !list_lookup_fmap. f_equal. exact Hids.
Qed.

(** C10: with two targets sharing a moduleId whose exports both succeed
    (and no password), the manifest lists two completed entries and counts
    both payload sizes, but the storage receives a single payload file for
    that moduleId, holding the second export's data; the first export's
    data is not stored anywhere. *)
Theorem CreateFullBackup_duplicate_module (s : BackupStorage) (username : string) (now : Z)
    (backupID : string) (schedule : list nat) (req : CreateFullBackupRequest)
    (w : World) (info : FullBackupInfo) (w' : World)
    (t1 t2 : ModuleTarget) (r1 r2 : ExportResult) :
  cfb_Targets req = [t1; t2] ->
  mt_ModuleId t1 = mt_ModuleId t2 ->
  ExportBackup t1 (cfb_TenantId req) (cfb_IncludeSecrets req) = inl r1 ->
  ExportBackup t2 (cfb_TenantId req) (cfb_IncludeSecrets req) = inl r2 ->
  cfb_Password req = "" ->
  schedule ≡ₚ seq 0 (length (cfb_Targets req)) ->
  CreateFullBackup s username now backupID schedule req w = (Ok info, w') ->
  map bi_Status (fb_ModuleBackups info) = ["completed"; "completed"] /\
  map bi_ModuleId (fb_ModuleBackups info) = [mt_ModuleId t1; mt_ModuleId t1] /\
  fb_TotalSizeBytes info =
    int64 (Z.of_nat (length (er_Data r1)) + Z.of_nat (length (er_Data r2))) /\
  exists manifest,
    files w' =
      <[(fullDir s backupID, "metadata.json") := manifest]>
        (<[(fullDir s backupID, mt_ModuleId t1 +:+ ".json.gz") := gzipEncode (er_Data r2)]>
           (files w)).
Proof.
  intros Ht Hid E1 E2 Hpw Hperm.
  unfold CreateFullBackup. rewrite (runExports_permutation req schedule Hperm).
  rewrite Ht. cbn [length map]. rewrite decide_False by done.
  unfold exportTask. rewrite E1, E2. cbn [aggregate mr_err mr_target mr_result].
  rewrite <- Hid, insert_insert_eq, insert_empty, Z.add_0_l, int64_add_int64.
  cbn [length app]. rewrite !decide_False by lia.
  unfold SaveFullBackup. rewrite Hpw, map_to_list_singleton.
  rewrite decide_False by (intros X; apply X; reflexivity).
  cbn [writeModuleData].
  unfold mbind, M_bind, bind, mret, M_ret, ret, wrapErr, liftR, gzipCompress,
    mkdirAll, writeFile.
  cbv beta iota zeta. cbn [fb_Id files].
  destruct (decide ("" ≠ "")) as [X|_]; [exfalso; apply X; reflexivity|].
  cbv beta iota zeta. cbn [dirs files entropy].
  destruct (protojsonMarshal _) as [manifest|e|e]; intros Hc; try discriminate.
  injection Hc as <- <-. cbn.
  split; [reflexivity|]. split; [reflexivity|]. split; [reflexivity|].
  exists manifest. reflexivity.
Qed.

(** C4: a completed manifest entry whose [ImportBackup] call returns a
    response with [success = false] (and no error) yields a per-module
    result with [success = false], yet the overall [success] of
    [RestoreFullBackup] stays [true]: [allSuccess] is only cleared on the
    missing-target, load-error and RPC-error paths, so it is not the
    conjunction of the per-module successes. *)
Theorem RestoreFullBackup_unsuccessful_import (s : BackupStorage)
    (req : RestoreFullBackupRequest) (w : World) (info : FullBackupInfo)
    (target : ModuleTarget) (mb : BackupInfo) (data : bytes) (resp : ImportResponse) :
  rfb_Targets req = [target] ->
  mt_ModuleId target = bi_ModuleId mb ->
  bi_Status mb = "completed" ->
  GetFullBackup s (rfb_BackupId req) w = (Ok info, w) ->
  fb_ModuleBackups info = [mb] ->
  LoadFullBackupModuleData s (rfb_BackupId req) (bi_ModuleId mb) (rfb_Password req) w =
    (Ok data, w) ->
  ImportBackup target data (rfb_Mode req) = inl resp ->
  ir_Success resp = false ->
  exists out,
    RestoreFullBackup s req w = (Ok out, w) /\
    map mrr_Success (rfbr_ModuleResults out) = [false] /\
    rfbr_Success out = true.
Proof.
  intros Ht Hid Hst Hget Hmbs Hload Himp Hsucc.
  unfold RestoreFullBackup. rewrite Ht. cbn [length]. rewrite decide_False by done.
  unfold mbind, M_bind, bind, mret, M_ret, ret, wrapErr.
  rewrite Hget. cbv beta iota. rewrite Hmbs.
  unfold buildTargetMap. cbn [foldl restoreModules].
  rewrite Hst. destruct (decide ("completed" ≠ "completed")) as [X|_];
    [exfalso; apply X; reflexivity|].
  rewrite <- Hid, lookup_insert_eq, Hid, Hload, Himp.
  cbn [restoreModules]. unfold mret, M_ret, ret.
  eexists. split; [reflexivity|]. cbn. rewrite Hsucc. split; reflexivity.
Qed.

(** ** Strings *)

#[local] Arguments String.append : simpl nomatch.

Lemma string_app_assoc (a b c : string) : (a +:+ b) +:+ c = a +:+ (b +:+ c).
Proof. induction a as [|x a IH]; simpl; [reflexivity|]. congruence. Qed.

Lemma string_length_app (a b : string) :
  String.length (a +:+ b) = String.length a + String.length b.
Proof. induction a as [|x a IH]; simpl; [reflexivity|]. congruence. Qed.

Lemma substring_app_l (a b : string) : String.substring 0 (String.length a) (a +:+ b) = a.
Proof. induction a as [|x a IH]; simpl; [destruct b; reflexivity|]. congruence. Qed.

Lemma substring_app_r (a b : string) (n m : nat) :
  String.substring (String.length a + n) m (a +:+ b) = String.substring n m b.
Proof. induction a as [|x a IH]; simpl; [reflexivity|]. exact IH. Qed.

Lemma substring_all (b : string) : String.substring 0 (String.length b) b = b.
Proof. induction b as [|x b IH]; simpl; [reflexivity|]. congruence. Qed.

Lemma hasSuffix_app (a b : string) : hasSuffix (a +:+ b) b = true.
Proof.
  unfold hasSuffix. rewrite string_length_app.
  replace (String.length a + String.length b - String.length b)
    with (String.length a + 0) by lia.
  rewrite substring_app_r, substring_all, String.eqb_refl, andb_true_r.
  apply Nat.leb_le. lia.
Qed.

Lemma trimSuffix_app (a b : string) : trimSuffix (a +:+ b) b = a.
Proof.
  unfold trimSuffix. rewrite hasSuffix_app, string_length_app.
  replace (String.length a + String.length b - String.length b) with (String.length a) by lia.
  apply substring_app_l.
Qed.


Lemma prefix_app_self (a b : string) : String.prefix a (a +:+ b) = true.
Proof.
  induction a as [|c a IH]; simpl; [destruct b; reflexivity|].
  destruct (ascii_dec c c) as [_|n]; [exact IH|congruence].
Qed.









(** ** The filesystem *)



(** ** Module backups on disk *)

(** What a successful [SaveModuleBackup] leaves: its directory, the
    metadata of the returned message and one payload, the envelope of the
    compressed data when a password is set. *)
Lemma SaveModuleBackup_writes (s : BackupStorage) (info : BackupInfo) (data : bytes)
    (password : string) (w : World) (info' : BackupInfo) (w' : World) :
  SaveModuleBackup s info data password w = (Ok info', w') ->
  exists meta payload,
    protojsonMarshal info' = Ok meta /\
    info' = (if decide (password ≠ "") then setBackupEncrypted info else info) /\
    dirs w' = {[moduleDir s (bi_Id info)]} ∪ dirs w /\
    files w' =
      <[(moduleDir s (bi_Id info),
         if decide (password ≠ "") then "data.json.gz.enc" else "data.json.gz") := payload]>
        (<[(moduleDir s (bi_Id info), "metadata.json") := meta]> (files w)) /\
    (if decide (password ≠ "") then DecryptData payload password = Ok (gzipEncode data)
     else payload = gzipEncode data).
Proof.
  intros Hsave.
  unfold SaveModuleBackup, mbind, M_bind, bind, mret, M_ret, ret, wrapErr, mkdirAll, liftR,
    gzipCompress, writeFile in Hsave.
  destruct (decide (password ≠ "")) as [Hp|Hp].
  - rewrite encryptData_run in Hsave. cbv zeta in Hsave. cbn [entropy dirs files fst snd] in Hsave.
    destruct (protojsonMarshal _) as [mb|e|e] eqn:Em; [|discriminate|discriminate].
    injection Hsave as <- <-. cbn [dirs files].
    exists mb. eexists. split; [exact Em|]. split; [reflexivity|]. split; [reflexivity|].
    split; [reflexivity|].
    refine (DecryptData_encryptData (map (randByte (entropy w)) (seq 0 saltSize))
              (map (randByte (S (entropy w))) (seq 0 nonceSize)) _ _ _ _);
      rewrite length_map, length_seq; reflexivity.
  - cbn [entropy dirs files fst snd] in Hsave.
    destruct (protojsonMarshal _) as [mb|e|e] eqn:Em; [|discriminate|discriminate].
    injection Hsave as <- <-. cbn [dirs files].
    exists mb. eexists. split; [exact Em|]. repeat split.
Qed.

Lemma LoadModuleBackupData_after_Save (s : BackupStorage) (info : BackupInfo) (data : bytes)
    (password : string) (w : World) (info' : BackupInfo) (w' : World) :
  (password ≠ "" \/ files w !! (moduleDir s (bi_Id info), "data.json.gz.enc") = None) ->
  SaveModuleBackup s info data password w = (Ok info', w') ->
  LoadModuleBackupData s (bi_Id info) password w' = (Ok data, w').
Proof.
  intros Hfresh Hsave.
  destruct (SaveModuleBackup_writes _ _ _ _ _ _ _ Hsave) as (meta & payload & _ & _ & _ & Hf & Hpl).
  unfold LoadModuleBackupData, mbind, M_bind, bind, wrapErr, statOk, readFile, liftR, throw,
    gzipDecompress.
  cbv beta iota zeta. rewrite Hf.
  destruct (decide (password ≠ "")) as [Hp|Hp]; cbv iota in Hpl |- *.
  - rewrite lookup_insert_eq, bool_decide_true by eauto. cbv beta iota.
    rewrite decide_False by done. rewrite Hf, lookup_insert_eq. cbv beta iota.
    rewrite Hpl. cbv beta iota. rewrite gzipDecode_gzipEncode. reflexivity.
  - assert (password = "") as -> by (destruct (decide (password = "")); tauto).
    destruct Hfresh as [Hfresh|Hfresh]; [congruence|].
    rewrite !lookup_insert_ne by congruence.
    rewrite Hfresh, bool_decide_false by (intros [? ?]; discriminate). cbv beta iota.
    rewrite Hf, lookup_insert_eq. cbv beta iota. rewrite Hpl, gzipDecode_gzipEncode. reflexivity.
Qed.

Lemma GetModuleBackup_after_Save (s : BackupStorage) (info : BackupInfo) (data : bytes)
    (password : string) (w : World) (info' : BackupInfo) (w' : World) :
  SaveModuleBackup s info data password w = (Ok info', w') ->
  (forall b, protojsonMarshal info' = Ok b -> protojsonUnmarshal b protoReset = (info', None)) ->
  GetModuleBackup s (bi_Id info) w' = (Ok info', w').
Proof.
  intros Hsave Hrt.
  destruct (SaveModuleBackup_writes _ _ _ _ _ _ _ Hsave) as (meta & payload & Hm & _ & _ & Hf & _).
  unfold GetModuleBackup, mbind, M_bind, bind, wrapErr, readFile. cbv beta iota zeta.
  rewrite Hf, lookup_insert_ne by (destruct (decide _); congruence).
  rewrite lookup_insert_eq. cbv beta iota.
  unfold unmarshalWithFallback. rewrite (Hrt meta Hm). reflexivity.
Qed.

Lemma int32_small (z : Z) : (- 2 ^ 31 <= z < 2 ^ 31)%Z -> int32 z = z.
Proof. intros Hz. unfold int32. rewrite Z.mod_small by lia. lia. Qed.

Ltac page_window Hn Hlen Hpp :=
  let Hp := fresh "Hp" in let Hs := fresh "Hs" in
  match type of Hn with
  | normalizePagination ?a ?b = (?p, ?ps) =>
      pose proof (normalizePagination_spec a b) as [Hp Hs];
      rewrite Hn in Hp, Hs; cbn [fst snd] in Hp, Hs;
      assert (1 <= p)%Z by (clear - Hp; rewrite Hp; case_decide; lia);
      assert (1 <= ps <= 100)%Z by (clear - Hs; rewrite Hs; repeat case_decide; lia);
      rewrite (int32_small (Z.of_nat _)) by lia;
      rewrite (int32_small (p - 1)) by nia;
      rewrite (int32_small ((p - 1) * ps)) by nia;
      destruct (decide ((p - 1) * ps >= Z.of_nat _)%Z) as [Hge|Hlt];
      [ unfold mret, M_ret, ret; do 3 f_equal;
        rewrite drop_ge by lia; symmetry; apply take_nil
      | rewrite (int32_small ((p - 1) * ps + ps)) by nia;
        unfold liftR, goSlice;
        destruct (decide ((p - 1) * ps + ps > Z.of_nat _)%Z) as [Hgt|Hle];
        [ rewrite decide_True by nia; cbv beta iota; unfold mret, M_ret, ret; do 2 f_equal;
          rewrite !take_ge by (rewrite length_drop; lia); reflexivity
        | rewrite decide_True by nia; cbv beta iota; unfold mret, M_ret, ret; do 3 f_equal;
          f_equal; lia ] ]
  end.


(** ** Directory listings *)

Lemma GetModuleBackup_pure (s : BackupStorage) (n : string) (w : World) :
  exists r, GetModuleBackup s n w = (r, w) /\ forall p, r ≠ Panic p.
Proof.
  unfold GetModuleBackup, mbind, M_bind, bind, wrapErr, readFile, mret, M_ret, ret, throw.
  cbv beta iota zeta.
  destruct (files w !! _) as [d|]; cbv beta iota.
  - destruct (unmarshalWithFallback d protoReset) as [i [e|]];
      eexists; (split; [reflexivity|discriminate]).
  - eexists; split; [reflexivity|discriminate].
Qed.

Lemma GetFullBackup_pure (s : BackupStorage) (n : string) (w : World) :
  exists r, GetFullBackup s n w = (r, w) /\ forall p, r ≠ Panic p.
Proof.
  unfold GetFullBackup, mbind, M_bind, bind, wrapErr, readFile, mret, M_ret, ret, throw.
  cbv beta iota zeta.
  destruct (files w !! _) as [d|]; cbv beta iota.
  - destruct (unmarshalWithFallback d protoReset) as [i [e|]];
      eexists; (split; [reflexivity|discriminate]).
  - eexists; split; [reflexivity|discriminate].
Qed.

Lemma collectModuleBackups_spec (s : BackupStorage) (moduleID : string)
    (tenantID : option Z) (names : list string) (w : World) :
  exists l, collectModuleBackups s moduleID tenantID names w = (Ok l, w) /\
    forall info, In info l <->
      exists n, In n names /\ GetModuleBackup s n w = (Ok info, w) /\
                keepModuleBackup moduleID tenantID info = true.
Proof.
  induction names as [|n names IH].
  - exists []. split; [reflexivity|]. intros info. split; [intros []|intros (n & [] & _)].
  - destruct IH as (l & Hl & Hin).
    destruct (GetModuleBackup_pure s n w) as (r & Hr & Hnp).
    cbn [collectModuleBackups]. rewrite Hr.
    destruct r as [info0|e|p]; [| |exfalso; exact (Hnp p eq_refl)].
    + destruct (keepModuleBackup moduleID tenantID info0) eqn:Hk.
      * exists (info0 :: l). split.
        { unfold mbind, M_bind, bind, mret, M_ret, ret. rewrite Hl. reflexivity. }
        intros info. split.
        -- intros [<-|Hi]; [exists n; split; [left; reflexivity|split; assumption]|].
           apply Hin in Hi as (n' & ? & ? & ?). exists n'. split; [right; assumption|].
           split; assumption.
        -- intros (n' & [<-|Hn'] & Hg & Hk'); [left; congruence|].
           right. apply Hin. exists n'. split; [assumption|]. split; assumption.
      * exists l. split; [exact Hl|]. intros info. split.
        -- intros Hi. apply Hin in Hi as (n' & ? & ? & ?). exists n'.
           split; [right; assumption|]. split; assumption.
        -- intros (n' & [<-|Hn'] & Hg & Hk'); [rewrite Hr in Hg; congruence|].
           apply Hin. exists n'. split; [assumption|]. split; assumption.
    + exists l. split; [exact Hl|]. intros info. split.
      * intros Hi. apply Hin in Hi as (n' & ? & ? & ?). exists n'.
        split; [right; assumption|]. split; assumption.
      * intros (n' & [<-|Hn'] & Hg & Hk'); [rewrite Hr in Hg; congruence|].
        apply Hin. exists n'. split; [assumption|]. split; assumption.
Qed.

Lemma collectFullBackups_spec (s : BackupStorage) (tenantID : option Z)
    (names : list string) (w : World) :
  exists l, collectFullBackups s tenantID names w = (Ok l, w) /\
    forall info, In info l <->
      exists n, In n names /\ GetFullBackup s n w = (Ok info, w) /\
                keepFullBackup tenantID info = true.
Proof.
  induction names as [|n names IH].
  - exists []. split; [reflexivity|]. intros info. split; [intros []|intros (n & [] & _)].
  - destruct IH as (l & Hl & Hin).
    destruct (GetFullBackup_pure s n w) as (r & Hr & Hnp).
    cbn [collectFullBackups]. rewrite Hr.
    destruct r as [info0|e|p]; [| |exfalso; exact (Hnp p eq_refl)].
    + destruct (keepFullBackup tenantID info0) eqn:Hk.
      * exists (info0 :: l). split.
        { unfold mbind, M_bind, bind, mret, M_ret, ret. rewrite Hl. reflexivity. }
        intros info. split.
        -- intros [<-|Hi]; [exists n; split; [left; reflexivity|split; assumption]|].
           apply Hin in Hi as (n' & ? & ? & ?). exists n'. split; [right; assumption|].
           split; assumption.
        -- intros (n' & [<-|Hn'] & Hg & Hk'); [left; congruence|].
           right. apply Hin. exists n'. split; [assumption|]. split; assumption.
      * exists l. split; [exact Hl|]. intros info. split.
        -- intros Hi. apply Hin in Hi as (n' & ? & ? & ?). exists n'.
           split; [right; assumption|]. split; assumption.
        -- intros (n' & [<-|Hn'] & Hg & Hk'); [rewrite Hr in Hg; congruence|].
           apply Hin. exists n'. split; [assumption|]. split; assumption.
    + exists l. split; [exact Hl|]. intros info. split.
      * intros Hi. apply Hin in Hi as (n' & ? & ? & ?). exists n'.
        split; [right; assumption|]. split; assumption.
      * intros (n' & [<-|Hn'] & Hg & Hk'); [rewrite Hr in Hg; congruence|].
        apply Hin. exists n'. split; [assumption|]. split; assumption.
Qed.

Lemma keepModuleBackup_true (moduleID : string) (tenantID : option Z) (info : BackupInfo) :
  keepModuleBackup moduleID tenantID info = true <->
  (moduleID = "" \/ bi_ModuleId info = moduleID) /\
  (tenantID = None \/ tenantID = Some (bi_TenantId info)).
Proof.
  unfold keepModuleBackup. rewrite andb_true_iff, orb_true_iff, !String.eqb_eq.
  destruct tenantID as [t|]; [rewrite bool_decide_eq_true|]; intuition congruence.
Qed.

Lemma keepFullBackup_true (tenantID : option Z) (info : FullBackupInfo) :
  keepFullBackup tenantID info = true <->
  (tenantID = None \/ tenantID = Some (fb_TenantId info)).
Proof.
  unfold keepFullBackup.
  destruct tenantID as [t|]; [rewrite bool_decide_eq_true|]; intuition congruence.
Qed.

Lemma prefix_app_r (a b c : string) :
  String.prefix a b = true -> String.prefix a (b +:+ c) = true.
Proof.
  revert b. induction a as [|x a IH]; intros b Hp.
  - destruct b as [|y b]; [destruct c|]; reflexivity.
  - destruct b as [|y b]; [discriminate|].
    cbn [String.prefix String.append] in *. destruct (ascii_dec x y); [|discriminate].
    apply IH. exact Hp.
Qed.

(** Where [os.Stat] finds nothing, [os.ReadDir] reports "not exist". *)
Lemma readDir_NotExist (dir : string) (w : World) :
  statExists dir w = (Ok false, w) -> readDir dir w = NotExist.
Proof.
  unfold statExists, readDir, dirExists. intros Hs. injection Hs as Hs.
  apply orb_false_iff in Hs as [Hd Hf].
  assert (Hf' : forall k, k ∈ elements (dom (files w)) -> underDir dir (filePath k) = false).
  { intros k Hk. apply not_true_iff_false. intros Hu. apply not_true_iff_false in Hf.
    apply Hf, existsb_exists. exists k. split; [apply list_elem_of_In; exact Hk|exact Hu]. }
  rewrite Hd. cbn [orb].
  replace (existsb (fun k => underDir dir k.1) (elements (dom (files w)))) with false.
  2:{ symmetry. apply not_true_iff_false. intros Hex.
      apply existsb_exists in Hex as ([d n] & Hin & Hu).
      apply list_elem_of_In in Hin. specialize (Hf' _ Hin).
      unfold underDir, filePath in Hu, Hf'. cbn [fst snd] in Hu, Hf'.
      apply orb_false_iff in Hf' as [_ Hf'].
      apply orb_true_iff in Hu as [Hu|Hu].
      - apply String.eqb_eq in Hu as ->. rewrite <- string_app_assoc, prefix_app_self in Hf'.
        discriminate.
      - rewrite (prefix_app_r _ _ _ Hu) in Hf'. discriminate. }
  replace (existsb (fun k => String.eqb (filePath k) dir) (elements (dom (files w)))) with false.
  2:{ symmetry. apply not_true_iff_false. intros Hex.
      apply existsb_exists in Hex as (k & Hin & Hu).
      apply list_elem_of_In in Hin. specialize (Hf' _ Hin).
      unfold underDir in Hf'. rewrite Hu in Hf'. discriminate. }
  reflexivity.
Qed.

(** * Further properties of the store, the engine and the tools *)

(** X1: [encryptData] never touches the filesystem and draws two buffers
    from the entropy source; its envelope is 60 bytes longer than the
    plaintext (32-byte salt, 12-byte nonce, 16-byte GCM tag) and
    [DecryptData] with the same password returns the plaintext. *)
Theorem encryptData_envelope (data : bytes) (password : string) (w : World) :
  exists envelope,
    encryptData data password w =
      (Ok envelope, mkWorld (dirs w) (files w) (S (S (entropy w)))) /\
    length envelope = length data + 60 /\
    DecryptData envelope password = Ok data.
Proof.
  rewrite encryptData_run. cbv zeta. eexists. split; [reflexivity|]. split.
  - rewrite !length_app, gcmSeal_length, !length_map, !length_seq.
    unfold saltSize, nonceSize. lia.
  - apply DecryptData_encryptData; rewrite length_map, length_seq; reflexivity.
Qed.

(** X2: a successful [SaveModuleBackup] changes nothing outside the
    backup's directory; inside it only "metadata.json" and the payload file
    change, and with a password no plaintext "data.json.gz" is written. *)
Theorem SaveModuleBackup_touches_only_its_dir (s : BackupStorage) (info : BackupInfo)
    (data : bytes) (password : string) (w : World) (info' : BackupInfo) (w' : World) :
  SaveModuleBackup s info data password w = (Ok info', w') ->
  dirs w' = {[moduleDir s (bi_Id info)]} ∪ dirs w /\
  (forall k, k.1 ≠ moduleDir s (bi_Id info) -> files w' !! k = files w !! k) /\
  (forall name, name ≠ "metadata.json" -> name ≠ "data.json.gz" -> name ≠ "data.json.gz.enc" ->
     files w' !! (moduleDir s (bi_Id info), name) = files w !! (moduleDir s (bi_Id info), name)) /\
  (password ≠ "" ->
     files w' !! (moduleDir s (bi_Id info), "data.json.gz") =
     files w !! (moduleDir s (bi_Id info), "data.json.gz")).
Proof.
  intros Hsave.
  destruct (SaveModuleBackup_writes _ _ _ _ _ _ _ Hsave) as (meta & payload & _ & _ & Hd & Hf & _).
  split; [exact Hd|]. rewrite Hf. split; [|split].
  - intros [d n] Hk. cbn in Hk.
    rewrite !lookup_insert_ne by (intros Heq; injection Heq; intros; congruence). reflexivity.
  - intros name H1 H2 H3.
    rewrite !lookup_insert_ne by (destruct (decide _); congruence). reflexivity.
  - intros Hp. rewrite decide_True by exact Hp.
    rewrite !lookup_insert_ne by congruence. reflexivity.
Qed.

(** X3: once [SaveModuleBackup] has succeeded, [GetModuleBackup] of the
    same id returns the saved message (marked encrypted when a password
    was given), provided protojson decodes what it encoded. *)
Theorem GetModuleBackup_returns_saved (s : BackupStorage) (info : BackupInfo) (data : bytes)
    (password : string) (w : World) (info' : BackupInfo) (w' : World) :
  SaveModuleBackup s info data password w = (Ok info', w') ->
  (forall b, protojsonMarshal info' = Ok b -> protojsonUnmarshal b protoReset = (info', None)) ->
  GetModuleBackup s (bi_Id info) w' =
    (Ok (if decide (password ≠ "") then setBackupEncrypted info else info), w').
Proof.
  intros Hsave Hrt.
  destruct (SaveModuleBackup_writes _ _ _ _ _ _ _ Hsave) as (_ & _ & _ & Hinfo & _).
  rewrite <- Hinfo. exact (GetModuleBackup_after_Save _ _ _ _ _ _ _ Hsave Hrt).
Qed.

(** X4: after [SaveModuleBackup], [DownloadBackup] with the same id and
    password returns the saved payload under the name
    "<module>-<first 8 bytes of the id>-<date>.json"; for an id shorter
    than 8 bytes it panics on [info.Id[:8]], after the payload was loaded. *)
Theorem DownloadBackup_after_Save (s : BackupStorage) (info : BackupInfo) (data : bytes)
    (req : DownloadBackupRequest) (w : World) (info' : BackupInfo) (w' : World) :
  (dlb_Password req ≠ "" \/
   (bi_Encrypted info = false /\
    files w !! (moduleDir s (bi_Id info), "data.json.gz.enc") = None)) ->
  SaveModuleBackup s info data (dlb_Password req) w = (Ok info', w') ->
  (forall b, protojsonMarshal info' = Ok b -> protojsonUnmarshal b protoReset = (info', None)) ->
  dlb_Id req = bi_Id info ->
  DownloadBackup s req w' =
    ((if decide (8 <= String.length (bi_Id info)) then
        Ok {| dlbr_Data := data;
              dlbr_Filename := bi_ModuleId info +:+ "-" +:+ String.substring 0 8 (bi_Id info) +:+
                               "-" +:+ formatDate (default 0%Z (bi_CreatedAt info)) +:+ ".json" |}
      else Panic "runtime error: slice bounds out of range"), w').
Proof.
  intros Hpw Hsave Hrt Hid.
  destruct (SaveModuleBackup_writes _ _ _ _ _ _ _ Hsave) as (_ & _ & _ & Hinfo & _).
  pose proof (GetModuleBackup_after_Save _ _ _ _ _ _ _ Hsave Hrt) as Hget.
  assert (Hload : LoadModuleBackupData s (bi_Id info) (dlb_Password req) w' = (Ok data, w')).
  { apply (LoadModuleBackupData_after_Save _ _ _ _ w info'); [|exact Hsave]. tauto. }
  unfold DownloadBackup, mbind, M_bind, bind, wrapErr, mret, M_ret, ret, liftR, throw.
  cbv beta iota zeta. rewrite Hid, Hget. cbv beta iota.
  rewrite decide_False.
  2:{ intros [He Hp]. rewrite Hinfo in He. destruct (decide (dlb_Password req ≠ "")); [tauto|].
      destruct Hpw as [Hpw|[Hpw _]]; [tauto|congruence]. }
  rewrite Hload. cbv beta iota.
  assert (bi_Id info' = bi_Id info /\ bi_ModuleId info' = bi_ModuleId info /\
          bi_CreatedAt info' = bi_CreatedAt info) as (-> & -> & ->)
    by (rewrite Hinfo; destruct (decide _); repeat split).
  unfold goSliceString. destruct (decide (8 <= String.length (bi_Id info))); reflexivity.
Qed.

(** X5: for a backup saved with a password, [DownloadBackup] without one
    stops with "backup is encrypted: password required" before reading the
    payload. *)
Theorem DownloadBackup_encrypted_needs_password (s : BackupStorage) (info : BackupInfo)
    (data : bytes) (password : string) (req : DownloadBackupRequest) (w : World)
    (info' : BackupInfo) (w' : World) :
  password ≠ "" ->
  SaveModuleBackup s info data password w = (Ok info', w') ->
  (forall b, protojsonMarshal info' = Ok b -> protojsonUnmarshal b protoReset = (info', None)) ->
  dlb_Id req = bi_Id info -> dlb_Password req = "" ->
  DownloadBackup s req w' = (Err "backup is encrypted: password required", w').
Proof.
  intros Hp Hsave Hrt Hid Hnp.
  destruct (SaveModuleBackup_writes _ _ _ _ _ _ _ Hsave) as (_ & _ & _ & Hinfo & _).
  pose proof (GetModuleBackup_after_Save _ _ _ _ _ _ _ Hsave Hrt) as Hget.
  unfold DownloadBackup, mbind, M_bind, bind, wrapErr, throw.
  cbv beta iota zeta. rewrite Hid, Hget. cbv beta iota.
  rewrite decide_True; [reflexivity|]. split; [|exact Hnp].
  rewrite Hinfo, decide_True by exact Hp. reflexivity.
Qed.

(** X6: after [SaveModuleBackup], [RestoreModuleBackup] of the same id and
    password hands exactly the saved payload to the module's import, and
    its response mirrors the module's answer. *)
Theorem RestoreModuleBackup_after_Save (s : BackupStorage) (info : BackupInfo) (data : bytes)
    (req : RestoreModuleBackupRequest) (t : ModuleTarget) (resp : ImportResponse)
    (w : World) (info' : BackupInfo) (w' : World) :
  (rmb_Password req ≠ "" \/ files w !! (moduleDir s (bi_Id info), "data.json.gz.enc") = None) ->
  SaveModuleBackup s info data (rmb_Password req) w = (Ok info', w') ->
  rmb_BackupId req = bi_Id info -> rmb_Target req = Some t ->
  ImportBackup t data (rmb_Mode req) = inl resp ->
  RestoreModuleBackup s req w' =
    (Ok {| rmbr_Success := ir_Success resp;
           rmbr_Results := map copyEntityImportResult (ir_Results resp);
           rmbr_Warnings := ir_Warnings resp |}, w').
Proof.
  intros Hfresh Hsave Hid Ht Himp.
  pose proof (LoadModuleBackupData_after_Save _ _ _ _ _ _ _ Hfresh Hsave) as Hload.
  unfold RestoreModuleBackup. rewrite Ht.
  unfold mbind, M_bind, bind, wrapErr, mret, M_ret, ret.
  cbv beta iota zeta. rewrite Hid, Hload. cbv beta iota. rewrite Himp. reflexivity.
Qed.

(** X7: when the export succeeds, the backup [CreateModuleBackup] returns
    is "completed", has the export's size and the new id, is marked
    encrypted exactly when a password is given, and loading it back
    returns the exported payload. *)
Theorem CreateModuleBackup_stores_export (s : BackupStorage) (username : string) (now : Z)
    (backupID : string) (req : CreateModuleBackupRequest) (t : ModuleTarget)
    (r : ExportResult) (w : World) (info : BackupInfo) (w' : World) :
  cmb_Target req = Some t ->
  ExportBackup t (cmb_TenantId req) (cmb_IncludeSecrets req) = inl r ->
  (cmb_Password req ≠ "" \/ files w !! (moduleDir s backupID, "data.json.gz.enc") = None) ->
  CreateModuleBackup s username now backupID req w = (Ok info, w') ->
  LoadModuleBackupData s backupID (cmb_Password req) w' = (Ok (er_Data r), w') /\
  bi_Id info = backupID /\ bi_Status info = "completed" /\
  bi_SizeBytes info = Z.of_nat (length (er_Data r)) /\
  bi_Encrypted info = bool_decide (cmb_Password req ≠ "").
Proof.
  intros Ht Hr Hfresh Hc.
  unfold CreateModuleBackup in Hc. rewrite Ht, Hr in Hc.
  unfold mbind, M_bind, bind, wrapErr, mret, M_ret, ret in Hc.
  match type of Hc with
  | context [SaveModuleBackup s ?i (er_Data r) (cmb_Password req) w] =>
      destruct (SaveModuleBackup s i (er_Data r) (cmb_Password req) w)
        as [[i'|e|e] w2] eqn:Es
  end; try discriminate.
  injection Hc as <- <-.
  destruct (SaveModuleBackup_writes _ _ _ _ _ _ _ Es) as (_ & _ & _ & Hinfo & _).
  split; [refine (LoadModuleBackupData_after_Save s _ _ _ w i' w2 _ Es); exact Hfresh|].
  rewrite Hinfo. destruct (decide (cmb_Password req ≠ "")) as [Hp|Hp];
    cbn [bi_Id bi_Status bi_SizeBytes bi_Encrypted setBackupEncrypted].
  - rewrite bool_decide_true by exact Hp. repeat split.
  - rewrite bool_decide_false by exact Hp. repeat split.
Qed.



(** X10: [normalizePagination] yields a page of at least 1 and a page size
    between 1 and 100, and leaves such a pair unchanged. *)
Theorem normalizePagination_normal (page pageSize : Z) :
  let '(p, ps) := normalizePagination page pageSize in
  (1 <= p)%Z /\ (1 <= ps <= 100)%Z /\ normalizePagination p ps = (p, ps).
Proof.
  unfold normalizePagination. cbv zeta.
  repeat case_decide; repeat split; first [reflexivity | lia | exfalso; lia].
Qed.

(** X11: when neither [page * pageSize] nor the number of backups
    overflows [int32], [ListBackups] returns the window
    [backups[(page-1)*pageSize : page*pageSize]] cut at the end of the
    list (empty past it) and the total count. *)
Theorem ListBackups_window (s : BackupStorage) (req : ListBackupsRequest) (w w' : World)
    (backups : list BackupInfo) (p ps : Z) :
  ListModuleBackups s (lb_ModuleId req) (lb_TenantId req) w = (Ok backups, w') ->
  normalizePagination (lb_Page req) (lb_PageSize req) = (p, ps) ->
  (Z.of_nat (length backups) < 2 ^ 31)%Z -> (p * ps < 2 ^ 31)%Z ->
  ListBackups s req w =
    (Ok {| lbr_Backups := take (Z.to_nat ps) (drop (Z.to_nat ((p - 1) * ps)) backups);
           lbr_Total := Z.of_nat (length backups) |}, w').
Proof.
  intros Hl Hn Hlen Hpp.
  unfold ListBackups, mbind, M_bind, bind, wrapErr. cbv beta iota zeta.
  rewrite Hl. cbv beta iota zeta. rewrite Hn. cbv beta iota zeta.
  page_window Hn Hlen Hpp.
Qed.

(** X12: the same window for [ListFullBackups]. *)
Theorem ListFullBackups_window (s : BackupStorage) (req : ListFullBackupsRequest)
    (w w' : World) (backups : list FullBackupInfo) (p ps : Z) :
  StorageListFullBackups s (lfb_TenantId req) w = (Ok backups, w') ->
  normalizePagination (lfb_Page req) (lfb_PageSize req) = (p, ps) ->
  (Z.of_nat (length backups) < 2 ^ 31)%Z -> (p * ps < 2 ^ 31)%Z ->
  ListFullBackups s req w =
    (Ok {| lfbr_Backups := take (Z.to_nat ps) (drop (Z.to_nat ((p - 1) * ps)) backups);
           lfbr_Total := Z.of_nat (length backups) |}, w').
Proof.
  intros Hl Hn Hlen Hpp.
  unfold ListFullBackups, mbind, M_bind, bind, wrapErr. cbv beta iota zeta.
  rewrite Hl. cbv beta iota zeta. rewrite Hn. cbv beta iota zeta.
  page_window Hn Hlen Hpp.
Qed.

(** X16: [storage.ListModuleBackups] only reads: when the modules
    directory exists it succeeds with exactly the backups of its
    subdirectories whose metadata loads and that match the module id (when
    one is given) and the tenant (when one is given); when nothing exists
    at that path it returns an empty list, not an error. *)
Theorem ListModuleBackupsImpl_lists (s : BackupStorage) (moduleID : string)
    (tenantID : option Z) (w : World) :
  (dirExists (modulesDir s) w = true ->
   exists l, ListModuleBackupsImpl s moduleID tenantID w = (Ok l, w) /\
     forall info, In info l <->
       exists n, In n (childDirs (modulesDir s) w) /\
         GetModuleBackup s n w = (Ok info, w) /\
         (moduleID = "" \/ bi_ModuleId info = moduleID) /\
         (tenantID = None \/ tenantID = Some (bi_TenantId info))) /\
  (statExists (modulesDir s) w = (Ok false, w) ->
   ListModuleBackupsImpl s moduleID tenantID w = (Ok [], w)).
Proof.
  split.
  - intros Hd. unfold ListModuleBackupsImpl, readDir. rewrite Hd.
    destruct (collectModuleBackups_spec s moduleID tenantID (childDirs (modulesDir s) w) w)
      as (l & Hl & Hin).
    exists (sortModuleBackups l). split.
    + unfold mbind, M_bind, bind, mret, M_ret, ret. rewrite Hl. reflexivity.
    + intros info. split.
      * intros Hi. apply (Permutation_in _ (sortModuleBackups_perm l)) in Hi.
        apply Hin in Hi as (n & Hn & Hg & Hk). apply keepModuleBackup_true in Hk.
        exists n. tauto.
      * intros (n & Hn & Hg & Hk). apply (Permutation_in _ (Permutation_sym (sortModuleBackups_perm l))).
        apply Hin. exists n. split; [exact Hn|]. split; [exact Hg|].
        apply keepModuleBackup_true. exact Hk.
  - intros Hs. unfold ListModuleBackupsImpl. rewrite (readDir_NotExist _ _ Hs). reflexivity.
Qed.

(** X17: [storage.ListFullBackups] likewise lists exactly the full
    backups of the subdirectories of the full directory whose manifest
    loads and that match the tenant (when one is given), and returns an
    empty list when nothing exists at that path. *)
Theorem ListFullBackupsImpl_lists (s : BackupStorage) (tenantID : option Z) (w : World) :
  (dirExists (fullsDir s) w = true ->
   exists l, ListFullBackupsImpl s tenantID w = (Ok l, w) /\
     forall info, In info l <->
       exists n, In n (childDirs (fullsDir s) w) /\
         GetFullBackup s n w = (Ok info, w) /\
         (tenantID = None \/ tenantID = Some (fb_TenantId info))) /\
  (statExists (fullsDir s) w = (Ok false, w) ->
   ListFullBackupsImpl s tenantID w = (Ok [], w)).
Proof.
  split.
  - intros Hd. unfold ListFullBackupsImpl, readDir. rewrite Hd.
    destruct (collectFullBackups_spec s tenantID (childDirs (fullsDir s) w) w)
      as (l & Hl & Hin).
    exists (sortFullBackups l). split.
    + unfold mbind, M_bind, bind, mret, M_ret, ret. rewrite Hl. reflexivity.
    + intros info. split.
      * intros Hi. apply (Permutation_in _ (sortFullBackups_perm l)) in Hi.
        apply Hin in Hi as (n & Hn & Hg & Hk). apply keepFullBackup_true in Hk.
        exists n. tauto.
      * intros (n & Hn & Hg & Hk). apply (Permutation_in _ (Permutation_sym (sortFullBackups_perm l))).
        apply Hin. exists n. split; [exact Hn|]. split; [exact Hg|].
        apply keepFullBackup_true. exact Hk.
  - intros Hs. unfold ListFullBackupsImpl. rewrite (readDir_NotExist _ _ Hs). reflexivity.
Qed.

End GoLib.

(** * The command line and the module client *)

(** X13: without [--output], [runDecrypt] writes the payload of
    "<x>.json.gz.enc" (the name [SaveModuleBackup] and [SaveFullBackup]
    give encrypted payloads) to "<x>.json", and that of a plain
    "<x>.json.gz" to "<x>.json" as well. *)
Theorem decryptOutputPath_strips_extensions (base : string) :
  decryptOutputPath (base +:+ ".json.gz.enc") "" = base +:+ ".json" /\
  decryptOutputPath (base +:+ ".json.gz") "" = base +:+ ".json".
Proof.
  unfold decryptOutputPath. rewrite String.eqb_refl. split.
  - replace (base +:+ ".json.gz.enc") with ((base +:+ ".json.gz") +:+ ".enc")
      by (rewrite string_app_assoc; reflexivity).
    rewrite trimSuffix_app.
    replace (base +:+ ".json.gz") with ((base +:+ ".json") +:+ ".gz")
      by (rewrite string_app_assoc; reflexivity).
    apply trimSuffix_app.
  - assert (E : trimSuffix (base +:+ ".json.gz") ".enc" = base +:+ ".json.gz").
    { unfold trimSuffix, hasSuffix. rewrite string_length_app. cbn [String.length].
      replace (String.length base + 8 - 4) with (String.length base + 4) by lia.
      rewrite substring_app_r. cbn [String.substring String.eqb].
      rewrite andb_false_r. reflexivity. }
    rewrite E.
    replace (base +:+ ".json.gz") with ((base +:+ ".json") +:+ ".gz")
      by (rewrite string_app_assoc; reflexivity).
    apply trimSuffix_app.
Qed.

(** X14: the target [dialModule] dials always carries a scheme, and
    normalising it again changes nothing. *)
Theorem dialTarget_has_scheme (endpoint : string) :
  containsStr (dialTarget endpoint) "://" = true /\
  dialTarget (dialTarget endpoint) = dialTarget endpoint.
Proof.
  assert (Hp : containsStr ("passthrough:///" +:+ endpoint) "://" = true) by reflexivity.
  unfold dialTarget. destruct (containsStr endpoint "://") eqn:E.
  - rewrite E. split; reflexivity.
  - rewrite Hp. split; [exact Hp|reflexivity].
Qed.

(** X15: the metadata [forwardMetadata] sends carries the caller's tenant
    id in decimal and, of the incoming metadata, only the first value of
    the user id, user name and roles keys; no other key (an authorization
    header, say) is ever forwarded. *)
Theorem forwardMetadata_lookup (tenantID : N) (inMD : option MD) (k : string) :
  forwardMetadata tenantID inMD !! k =
    if decide (k = "x-md-global-tenant-id") then Some [pretty tenantID]
    else if decide (k ∈ forwardedKeys) then
      match inMD ≫= (fun md => md !! k) with Some (v :: _) => Some [v] | _ => None end
    else None.
Proof.
  unfold forwardMetadata, forwardedKeys.
  destruct (decide (k = "x-md-global-tenant-id")) as [->|Ht].
  { destruct inMD as [md|]; cbn [foldl]; [|apply lookup_singleton_eq].
    repeat case_match; reflexivity. }
  destruct (decide (k ∈ ["x-md-global-user-id"; "x-md-global-username"; "x-md-global-roles"]))
    as [Hk|Hk].
  - repeat (apply elem_of_cons in Hk as [->|Hk]); [..|apply elem_of_nil in Hk; contradiction];
      destruct inMD as [md|]; cbn [foldl]; simpl; repeat case_match; reflexivity.
  - destruct inMD as [md|]; cbn [foldl];
      [repeat case_match|];
      rewrite ?lookup_insert_ne by (intros Heq; subst k; apply Hk; set_solver);
      apply lookup_singleton_ne; congruence.
Qed.

(** * The properties on concrete inputs *)

#[local] Existing Instance exampleBackupInfoProto.
#[local] Existing Instance exampleFullBackupInfoProto.

Lemma toyGcmOpen_toyGcmSeal (k n d : bytes) : toyGcmOpen k n (toyGcmSeal k n d) = Some d.
Proof.
  unfold toyGcmOpen, toyGcmSeal.
  rewrite length_app, length_replicate, Nat.add_sub, drop_app_length, take_app_length.
  rewrite decide_True by (split; [lia|reflexivity]). reflexivity.
Qed.

Lemma toyGcmSeal_length (k n d : bytes) : length (toyGcmSeal k n d) = length d + 16.
Proof. unfold toyGcmSeal. rewrite length_app, length_replicate. reflexivity. Qed.

Lemma toyGzipDecode_toyGzipEncode (d : bytes) : toyGzipDecode (toyGzipEncode d) = Ok d.
Proof. reflexivity. Qed.

Lemma CreateModuleBackup_export_failure_saves_nothing_witness :
  cmb_Target moduleRequestB = Some targetB /\
  exampleExportBackup targetB None false = inr "connection refused" /\
  exists info,
    CreateModuleBackup toyRandByte toyPbkdf2Key toyGcmSeal toyGzipEncode exampleExportBackup
      exampleStorage "admin" 0 "m1" moduleRequestB emptyWorld = (Ok info, emptyWorld) /\
    bi_Status info = "failed" /\ bi_Warnings info = ["connection refused"] /\
    bi_Id info = "m1" /\
    files emptyWorld !! (moduleDir exampleStorage "m1", "metadata.json") =
      files (snd (CreateModuleBackup toyRandByte toyPbkdf2Key toyGcmSeal toyGzipEncode
                    exampleExportBackup exampleStorage "admin" 0 "m1" moduleRequestB emptyWorld))
        !! (moduleDir exampleStorage "m1", "metadata.json").
Proof.
  split; [reflexivity|]. split; [reflexivity|].
  apply (CreateModuleBackup_export_failure_saves_nothing toyRandByte toyPbkdf2Key toyGcmSeal
           toyGzipEncode exampleExportBackup exampleStorage "admin" 0 "m1" moduleRequestB
           targetB "connection refused" emptyWorld); reflexivity.
Defined.

Lemma SaveModuleBackup_LoadModuleBackupData_roundtrip_witness :
  exists info' w',
    ("secret" <> "" \/
     files emptyWorld !! (moduleDir exampleStorage (bi_Id completedA), "data.json.gz.enc") = None) /\
    SaveModuleBackup toyRandByte toyPbkdf2Key toyGcmSeal toyGzipEncode exampleStorage
      completedA [Byte.x01; Byte.x02] "secret" emptyWorld = (Ok info', w') /\
    fst (LoadModuleBackupData toyPbkdf2Key toyGcmOpen toyGzipDecode exampleStorage
           (bi_Id completedA) "secret" w') = Ok [Byte.x01; Byte.x02].
Proof.
  eexists _, _. split; [left; discriminate|]. split; [vm_compute; reflexivity|].
  eapply (SaveModuleBackup_LoadModuleBackupData_roundtrip toyRandByte toyPbkdf2Key toyGcmSeal
           toyGcmOpen toyGzipEncode toyGzipDecode toyGcmOpen_toyGcmSeal toyGcmSeal_length
           toyGzipDecode_toyGzipEncode exampleListModuleBackups exampleListFullBackups
           exampleStorage completedA _ [Byte.x01; Byte.x02] "secret" emptyWorld).
  - left; discriminate.
  - vm_compute; reflexivity.
Defined.

Lemma CreateFullBackup_status_total_witness :
  exists info w',
    [1; 0] ≡ₚ seq 0 (length (cfb_Targets partialRequest)) /\
    CreateFullBackup toyRandByte toyPbkdf2Key toyGcmSeal toyGzipEncode exampleExportBackup
      exampleStorage "admin" 0 "f2" [1; 0] partialRequest emptyWorld = (Ok info, w') /\
    cfb_Targets partialRequest ≠ [] /\
    (fb_Status info = "completed" <->
       Forall (fun t => exportFailed exampleExportBackup partialRequest t = false)
         (cfb_Targets partialRequest)) /\
    (fb_Status info = "failed" <->
       Forall (fun t => exportFailed exampleExportBackup partialRequest t = true)
         (cfb_Targets partialRequest)) /\
    (fb_Status info = "partial" <->
       ~ Forall (fun t => exportFailed exampleExportBackup partialRequest t = false)
           (cfb_Targets partialRequest) /\
       ~ Forall (fun t => exportFailed exampleExportBackup partialRequest t = true)
           (cfb_Targets partialRequest)) /\
    fb_TotalSizeBytes info = int64 (sumCompletedSizes (fb_ModuleBackups info)).
Proof.
  eexists _, _.
  split; [apply (bool_decide_unpack _); vm_compute; reflexivity|].
  split; [vm_compute; reflexivity|].
  eapply (CreateFullBackup_status_total toyRandByte toyPbkdf2Key toyGcmSeal toyGzipEncode
           exampleExportBackup exampleImportBackup exampleStorage "admin" 0 "f2" [1; 0]
           partialRequest emptyWorld).
  - apply (bool_decide_unpack _); vm_compute; reflexivity.
  - vm_compute; reflexivity.
Defined.

Lemma CreateFullBackup_order_witness :
  exists info w',
    [1; 0] ≡ₚ seq 0 (length (cfb_Targets partialRequest)) /\
    CreateFullBackup toyRandByte toyPbkdf2Key toyGcmSeal toyGzipEncode exampleExportBackup
      exampleStorage "admin" 0 "f3" [1; 0] partialRequest emptyWorld = (Ok info, w') /\
    length (fb_ModuleBackups info) = length (cfb_Targets partialRequest) /\
    forall i, bi_ModuleId <$> fb_ModuleBackups info !! i =
              mt_ModuleId <$> cfb_Targets partialRequest !! i.
Proof.
  eexists _, _.
  split; [apply (bool_decide_unpack _); vm_compute; reflexivity|].
  split; [vm_compute; reflexivity|].
  eapply (CreateFullBackup_order toyRandByte toyPbkdf2Key toyGcmSeal toyGzipEncode
           exampleExportBackup exampleImportBackup exampleStorage "admin" 0 "f3" [1; 0]
           partialRequest emptyWorld).
  - apply (bool_decide_unpack _); vm_compute; reflexivity.
  - vm_compute; reflexivity.
Defined.

Lemma CreateFullBackup_duplicate_module_witness :
  exists info w',
    cfb_Targets duplicateRequest = [targetA; targetA2] /\
    mt_ModuleId targetA = mt_ModuleId targetA2 /\
    exampleExportBackup targetA None false = inl exportA /\
    exampleExportBackup targetA2 None false = inl exportA2 /\
    cfb_Password duplicateRequest = "" /\
    [1; 0] ≡ₚ seq 0 (length (cfb_Targets duplicateRequest)) /\
    CreateFullBackup toyRandByte toyPbkdf2Key toyGcmSeal toyGzipEncode exampleExportBackup
      exampleStorage "admin" 0 "f4" [1; 0] duplicateRequest emptyWorld = (Ok info, w') /\
    map bi_Status (fb_ModuleBackups info) = ["completed"; "completed"] /\
    map bi_ModuleId (fb_ModuleBackups info) = ["a"; "a"] /\
    fb_TotalSizeBytes info = int64 (2 + 3) /\
    exists manifest,
      files w' =
        <[(fullDir exampleStorage "f4", "metadata.json") := manifest]>
          (<[(fullDir exampleStorage "f4", "a" +:+ ".json.gz") :=
               toyGzipEncode [Byte.x03; Byte.x04; Byte.x05]]> (files emptyWorld)).
Proof.
  eexists _, _.
  do 5 (split; [reflexivity|]).
  split; [apply (bool_decide_unpack _); vm_compute; reflexivity|].
  split; [vm_compute; reflexivity|].
  apply (CreateFullBackup_duplicate_module toyRandByte toyPbkdf2Key toyGcmSeal toyGzipEncode
           exampleExportBackup exampleImportBackup exampleStorage "admin" 0 "f4" [1; 0]
           duplicateRequest emptyWorld _ _ targetA targetA2 exportA exportA2).
  - reflexivity.
  - reflexivity.
  - reflexivity.
  - reflexivity.
  - reflexivity.
  - apply (bool_decide_unpack _); vm_compute; reflexivity.
  - vm_compute; reflexivity.
Defined.

Lemma RestoreFullBackup_unsuccessful_import_witness :
  rfb_Targets restoreRequest = [targetA] /\
  mt_ModuleId targetA = bi_ModuleId completedA /\
  bi_Status completedA = "completed" /\
  GetFullBackup exampleStorage "f1" restoreWorld = (Ok manifestA, restoreWorld) /\
  fb_ModuleBackups manifestA = [completedA] /\
  LoadFullBackupModuleData toyPbkdf2Key toyGcmOpen toyGzipDecode exampleStorage "f1" "a" ""
    restoreWorld = (Ok [Byte.x01], restoreWorld) /\
  exampleImportBackup targetA [Byte.x01] 0 = inl rejectedImport /\
  ir_Success rejectedImport = false /\
  exists out,
    RestoreFullBackup toyPbkdf2Key toyGcmOpen toyGzipDecode exampleImportBackup
      exampleStorage restoreRequest restoreWorld = (Ok out, restoreWorld) /\
    map mrr_Success (rfbr_ModuleResults out) = [false] /\
    rfbr_Success out = true.
Proof.
  do 8 (split; [reflexivity|]).
  apply (RestoreFullBackup_unsuccessful_import toyPbkdf2Key toyGcmOpen toyGzipDecode
           exampleImportBackup exampleStorage restoreRequest restoreWorld manifestA targetA
           completedA [Byte.x01] rejectedImport); reflexivity.
Defined.

Lemma ListBackups_page_overflow_panics_witness :
  exampleListModuleBackups exampleStorage "a" None emptyWorld = (Ok [], emptyWorld) /\
  exampleListFullBackups exampleStorage None emptyWorld = (Ok [], emptyWorld) /\
  lb_Page lastPageRequest = 2147483647%Z /\ lb_PageSize lastPageRequest = 100%Z /\
  lfb_Page lastFullPageRequest = 2147483647%Z /\ lfb_PageSize lastFullPageRequest = 100%Z /\
  ((lb_Page lastPageRequest - 1) * lb_PageSize lastPageRequest >= 0)%Z /\
  ListBackups exampleListModuleBackups exampleStorage lastPageRequest emptyWorld =
    (Panic "runtime error: slice bounds out of range", emptyWorld) /\
  ListFullBackups exampleListFullBackups exampleStorage lastFullPageRequest emptyWorld =
    (Panic "runtime error: slice bounds out of range", emptyWorld).
Proof.
  do 6 (split; [reflexivity|]).
  apply (ListBackups_page_overflow_panics exampleListModuleBackups exampleListFullBackups
           exampleStorage lastPageRequest lastFullPageRequest emptyWorld); reflexivity.
Defined.

(** ** The further properties on concrete inputs *)

#[local] Existing Instance encryptedBackupCProto | 0.

Lemma encryptData_envelope_witness :
  exists envelope,
    encryptData toyRandByte toyPbkdf2Key toyGcmSeal [Byte.x01] "secret" emptyWorld =
      (Ok envelope, mkWorld (dirs emptyWorld) (files emptyWorld) 2) /\
    length envelope = 61 /\
    DecryptData toyPbkdf2Key toyGcmOpen envelope "secret" = Ok [Byte.x01].
Proof.
  exact (encryptData_envelope toyRandByte toyPbkdf2Key toyGcmSeal toyGcmOpen
           toyGcmOpen_toyGcmSeal toyGcmSeal_length [Byte.x01] "secret" emptyWorld).
Defined.

Lemma SaveModuleBackup_touches_only_its_dir_witness :
  let w' := snd (SaveModuleBackup toyRandByte toyPbkdf2Key toyGcmSeal toyGzipEncode
                   exampleStorage backupC [Byte.x01] "secret" restoreWorld) in
  SaveModuleBackup toyRandByte toyPbkdf2Key toyGcmSeal toyGzipEncode
    exampleStorage backupC [Byte.x01] "secret" restoreWorld =
    (Ok (setBackupEncrypted backupC), w') /\
  dirs w' = {[moduleDir exampleStorage (bi_Id backupC)]} ∪ dirs restoreWorld /\
  (forall k, k.1 ≠ moduleDir exampleStorage (bi_Id backupC) ->
     files w' !! k = files restoreWorld !! k) /\
  (forall name, name ≠ "metadata.json" -> name ≠ "data.json.gz" -> name ≠ "data.json.gz.enc" ->
     files w' !! (moduleDir exampleStorage (bi_Id backupC), name) =
     files restoreWorld !! (moduleDir exampleStorage (bi_Id backupC), name)) /\
  ("secret" ≠ "" ->
     files w' !! (moduleDir exampleStorage (bi_Id backupC), "data.json.gz") =
     files restoreWorld !! (moduleDir exampleStorage (bi_Id backupC), "data.json.gz")).
Proof.
  cbv zeta. split; [vm_compute; reflexivity|].
  apply (SaveModuleBackup_touches_only_its_dir toyRandByte toyPbkdf2Key toyGcmSeal toyGcmOpen
           toyGzipEncode toyGcmOpen_toyGcmSeal toyGcmSeal_length exampleStorage backupC
           [Byte.x01] "secret" restoreWorld (setBackupEncrypted backupC)).
  vm_compute; reflexivity.
Defined.

Lemma GetModuleBackup_returns_saved_witness :
  let w' := snd (SaveModuleBackup toyRandByte toyPbkdf2Key toyGcmSeal toyGzipEncode
                   exampleStorage backupC [Byte.x01] "secret" emptyWorld) in
  SaveModuleBackup toyRandByte toyPbkdf2Key toyGcmSeal toyGzipEncode
    exampleStorage backupC [Byte.x01] "secret" emptyWorld =
    (Ok (setBackupEncrypted backupC), w') /\
  (forall b, protojsonMarshal (setBackupEncrypted backupC) = Ok b ->
     protojsonUnmarshal b protoReset = (setBackupEncrypted backupC, None)) /\
  GetModuleBackup exampleStorage (bi_Id backupC) w' =
    (Ok (if decide ("secret" ≠ "") then setBackupEncrypted backupC else backupC), w').
Proof.
  cbv zeta. split; [vm_compute; reflexivity|]. split; [intros b _; reflexivity|].
  apply (GetModuleBackup_returns_saved toyRandByte toyPbkdf2Key toyGcmSeal toyGcmOpen
           toyGzipEncode toyGcmOpen_toyGcmSeal toyGcmSeal_length exampleStorage backupC
           [Byte.x01] "secret" emptyWorld (setBackupEncrypted backupC)).
  - vm_compute; reflexivity.
  - intros b _; reflexivity.
Defined.

Lemma DownloadBackup_after_Save_witness :
  let w' := snd (SaveModuleBackup toyRandByte toyPbkdf2Key toyGcmSeal toyGzipEncode
                   exampleStorage backupC [Byte.x01] "secret" emptyWorld) in
  dlb_Password downloadRequestC ≠ "" /\
  SaveModuleBackup toyRandByte toyPbkdf2Key toyGcmSeal toyGzipEncode
    exampleStorage backupC [Byte.x01] (dlb_Password downloadRequestC) emptyWorld =
    (Ok (setBackupEncrypted backupC), w') /\
  dlb_Id downloadRequestC = bi_Id backupC /\
  DownloadBackup toyPbkdf2Key toyGcmOpen toyGzipDecode exampleFormatDate exampleStorage
    downloadRequestC w' =
    ((if decide (8 <= String.length (bi_Id backupC)) then
        Ok {| dlbr_Data := [Byte.x01];
              dlbr_Filename := bi_ModuleId backupC +:+ "-" +:+
                               String.substring 0 8 (bi_Id backupC) +:+ "-" +:+
                               exampleFormatDate (default 0%Z (bi_CreatedAt backupC)) +:+
                               ".json" |}
      else Panic "runtime error: slice bounds out of range"), w').
Proof.
  cbv zeta. split; [discriminate|]. split; [vm_compute; reflexivity|].
  split; [reflexivity|].
  apply (DownloadBackup_after_Save toyRandByte toyPbkdf2Key toyGcmSeal toyGcmOpen
           toyGzipEncode toyGzipDecode toyGcmOpen_toyGcmSeal toyGcmSeal_length
           toyGzipDecode_toyGzipEncode exampleListModuleBackups exampleListFullBackups
           exampleFormatDate exampleStorage backupC [Byte.x01] downloadRequestC emptyWorld
           (setBackupEncrypted backupC)).
  - left; discriminate.
  - vm_compute; reflexivity.
  - intros b _; reflexivity.
  - reflexivity.
Defined.

Lemma DownloadBackup_encrypted_needs_password_witness :
  let w' := snd (SaveModuleBackup toyRandByte toyPbkdf2Key toyGcmSeal toyGzipEncode
                   exampleStorage backupC [Byte.x01] "secret" emptyWorld) in
  SaveModuleBackup toyRandByte toyPbkdf2Key toyGcmSeal toyGzipEncode
    exampleStorage backupC [Byte.x01] "secret" emptyWorld =
    (Ok (setBackupEncrypted backupC), w') /\
  dlb_Password downloadRequestCNoPassword = "" /\
  DownloadBackup toyPbkdf2Key toyGcmOpen toyGzipDecode exampleFormatDate exampleStorage
    downloadRequestCNoPassword w' = (Err "backup is encrypted: password required", w').
Proof.
  cbv zeta. split; [vm_compute; reflexivity|]. split; [reflexivity|].
  apply (DownloadBackup_encrypted_needs_password toyRandByte toyPbkdf2Key toyGcmSeal toyGcmOpen
           toyGzipEncode toyGzipDecode toyGcmOpen_toyGcmSeal toyGcmSeal_length
           exampleFormatDate exampleStorage backupC [Byte.x01] "secret"
           downloadRequestCNoPassword emptyWorld (setBackupEncrypted backupC)).
  - discriminate.
  - vm_compute; reflexivity.
  - intros b _; reflexivity.
  - reflexivity.
  - reflexivity.
Defined.

Lemma RestoreModuleBackup_after_Save_witness :
  let w' := snd (SaveModuleBackup toyRandByte toyPbkdf2Key toyGcmSeal toyGzipEncode
                   exampleStorage backupC [Byte.x01] "secret" emptyWorld) in
  SaveModuleBackup toyRandByte toyPbkdf2Key toyGcmSeal toyGzipEncode
    exampleStorage backupC [Byte.x01] (rmb_Password restoreRequestC) emptyWorld =
    (Ok (setBackupEncrypted backupC), w') /\
  rmb_Target restoreRequestC = Some targetA /\
  exampleImportBackup targetA [Byte.x01] (rmb_Mode restoreRequestC) = inl rejectedImport /\
  RestoreModuleBackup toyPbkdf2Key toyGcmOpen toyGzipDecode exampleImportBackup exampleStorage
    restoreRequestC w' =
    (Ok {| rmbr_Success := ir_Success rejectedImport;
           rmbr_Results := map copyEntityImportResult (ir_Results rejectedImport);
           rmbr_Warnings := ir_Warnings rejectedImport |}, w').
Proof.
  cbv zeta. split; [vm_compute; reflexivity|]. split; [reflexivity|]. split; [reflexivity|].
  apply (RestoreModuleBackup_after_Save toyRandByte toyPbkdf2Key toyGcmSeal toyGcmOpen
           toyGzipEncode toyGzipDecode toyGcmOpen_toyGcmSeal toyGcmSeal_length
           toyGzipDecode_toyGzipEncode exampleImportBackup exampleListModuleBackups
           exampleListFullBackups exampleStorage backupC [Byte.x01] restoreRequestC targetA
           rejectedImport emptyWorld (setBackupEncrypted backupC)).
  - left; discriminate.
  - vm_compute; reflexivity.
  - reflexivity.
  - reflexivity.
  - reflexivity.
Defined.

Lemma CreateModuleBackup_stores_export_witness :
  let w' := snd (CreateModuleBackup toyRandByte toyPbkdf2Key toyGcmSeal toyGzipEncode
                   exampleExportBackup exampleStorage "admin" 0 "m2" moduleRequestA
                   emptyWorld) in
  CreateModuleBackup toyRandByte toyPbkdf2Key toyGcmSeal toyGzipEncode exampleExportBackup
    exampleStorage "admin" 0 "m2" moduleRequestA emptyWorld = (Ok createdM2, w') /\
  exampleExportBackup targetA None false = inl exportA /\
  LoadModuleBackupData toyPbkdf2Key toyGcmOpen toyGzipDecode exampleStorage "m2"
    (cmb_Password moduleRequestA) w' = (Ok (er_Data exportA), w') /\
  bi_Id createdM2 = "m2" /\ bi_Status createdM2 = "completed" /\
  bi_SizeBytes createdM2 = Z.of_nat (length (er_Data exportA)) /\
  bi_Encrypted createdM2 = bool_decide (cmb_Password moduleRequestA ≠ "").
Proof.
  cbv zeta. split; [vm_compute; reflexivity|]. split; [reflexivity|].
  apply (CreateModuleBackup_stores_export toyRandByte toyPbkdf2Key toyGcmSeal toyGcmOpen
           toyGzipEncode toyGzipDecode toyGcmOpen_toyGcmSeal toyGcmSeal_length
           toyGzipDecode_toyGzipEncode exampleExportBackup exampleListModuleBackups
           exampleListFullBackups exampleStorage "admin" 0 "m2" moduleRequestA targetA exportA
           emptyWorld createdM2).
  - reflexivity.
  - reflexivity.
  - left; discriminate.
  - vm_compute; reflexivity.
Defined.



Lemma ListBackups_window_witness :
  normalizePagination (lb_Page secondPageRequest) (lb_PageSize secondPageRequest) = (2%Z, 1%Z) /\
  ListBackups exampleListTwoBackups exampleStorage secondPageRequest emptyWorld =
    (Ok {| lbr_Backups := take (Z.to_nat 1) (drop (Z.to_nat ((2 - 1) * 1)) [completedA; backupC]);
           lbr_Total := Z.of_nat (length [completedA; backupC]) |}, emptyWorld).
Proof.
  split; [reflexivity|].
  apply (ListBackups_window exampleListTwoBackups exampleStorage secondPageRequest emptyWorld
           emptyWorld [completedA; backupC] 2 1).
  - reflexivity.
  - reflexivity.
  - vm_compute; reflexivity.
  - vm_compute; reflexivity.
Defined.

Lemma ListFullBackups_window_witness :
  normalizePagination (lfb_Page secondFullPageRequest) (lfb_PageSize secondFullPageRequest) =
    (2%Z, 1%Z) /\
  ListFullBackups exampleListTwoFullBackups exampleStorage secondFullPageRequest emptyWorld =
    (Ok {| lfbr_Backups := take (Z.to_nat 1)
                             (drop (Z.to_nat ((2 - 1) * 1)) [manifestA; emptyFullBackupInfo]);
           lfbr_Total := Z.of_nat (length [manifestA; emptyFullBackupInfo]) |}, emptyWorld).
Proof.
  split; [reflexivity|].
  apply (ListFullBackups_window exampleListTwoFullBackups exampleStorage secondFullPageRequest
           emptyWorld emptyWorld [manifestA; emptyFullBackupInfo] 2 1).
  - reflexivity.
  - reflexivity.
  - vm_compute; reflexivity.
  - vm_compute; reflexivity.
Defined.

Lemma ListModuleBackupsImpl_lists_witness :
  let w' := snd (SaveModuleBackup toyRandByte toyPbkdf2Key toyGcmSeal toyGzipEncode
                   exampleStorage backupC [Byte.x01] "secret" emptyWorld) in
  (dirExists (modulesDir exampleStorage) w' = true /\
   exists l, ListModuleBackupsImpl (fun l => l) exampleStorage "a" None w' = (Ok l, w') /\
     forall info, In info l <->
       exists n, In n (childDirs (modulesDir exampleStorage) w') /\
         GetModuleBackup exampleStorage n w' = (Ok info, w') /\
         ("a" = "" \/ bi_ModuleId info = "a") /\
         (@None Z = None \/ @None Z = Some (bi_TenantId info))) /\
  (statExists (modulesDir exampleStorage) emptyWorld = (Ok false, emptyWorld) /\
   ListModuleBackupsImpl (fun l => l) exampleStorage "a" None emptyWorld = (Ok [], emptyWorld)).
Proof.
  cbv zeta. split; split.
  - vm_compute; reflexivity.
  - apply (ListModuleBackupsImpl_lists toyPbkdf2Key exampleListTwoBackups
             exampleListTwoFullBackups exampleFormatDate (fun l => l) (fun l => Permutation_refl l)).
    vm_compute; reflexivity.
  - vm_compute; reflexivity.
  - apply (ListModuleBackupsImpl_lists toyPbkdf2Key exampleListTwoBackups
             exampleListTwoFullBackups exampleFormatDate (fun l => l) (fun l => Permutation_refl l)).
    vm_compute; reflexivity.
Defined.

Lemma ListFullBackupsImpl_lists_witness :
  (dirExists (fullsDir exampleStorage) restoreWorld = true /\
   exists l, ListFullBackupsImpl (fun l => l) exampleStorage None restoreWorld = (Ok l, restoreWorld) /\
     forall info, In info l <->
       exists n, In n (childDirs (fullsDir exampleStorage) restoreWorld) /\
         GetFullBackup exampleStorage n restoreWorld = (Ok info, restoreWorld) /\
         (@None Z = None \/ @None Z = Some (fb_TenantId info))) /\
  (statExists (fullsDir exampleStorage) emptyWorld = (Ok false, emptyWorld) /\
   ListFullBackupsImpl (fun l => l) exampleStorage None emptyWorld = (Ok [], emptyWorld)).
Proof.
  split; split.
  - vm_compute; reflexivity.
  - apply (ListFullBackupsImpl_lists toyPbkdf2Key exampleListTwoBackups
             exampleListTwoFullBackups exampleFormatDate (fun l => l) (fun l => Permutation_refl l)).
    vm_compute; reflexivity.
  - vm_compute; reflexivity.
  - apply (ListFullBackupsImpl_lists toyPbkdf2Key exampleListTwoBackups
             exampleListTwoFullBackups exampleFormatDate (fun l => l) (fun l => Permutation_refl l)).
    vm_compute; reflexivity.
Defined.
